(** * point_back: the point management API of [main.py]

    A shallow embedding of the request handlers of [main.py] (FastAPI over a
    SQLAlchemy session) together with the properties of the redemption
    transaction and of the read accessors.

    Modelling conventions.
    - Python [int] is [Z]; the Integer columns hold integers (SQL NULL and
      the column width of the storage engine are not modelled).
    - A TIMESTAMP is a [Z] (seconds since the epoch); [datetime.now()] and
      [datetime.utcnow()] are the two clock readings of the request.
    - A table is the list of its rows in storage order; [Query.first()]
      returns the first row of that order that passes the filter.
    - The SQLAlchemy session is a small state-and-error monad over the
      committed database, the view of the open transaction and the unit of
      work (dirty attributes, added objects).  Every statement sent to the
      storage is one round trip, and a fault plan says which round trip, if
      any, fails. *)

From Stdlib Require Import ZArith List String Bool Lia Permutation Sorted.
Import ListNotations.
Local Open Scope Z_scope.

(** ** Rows of the four tables used by the handlers *)

Definition datetime := Z.

Module UserBalance.
Record t := mk {
  id : Z;
  user_id : Z;
  current_points : Z;
  scheduled_points : Z;
  expiring_points : Z;
  updated_at : datetime }.
End UserBalance.

Module PointHistory.
Record t := mk {
  id : Z;
  user_id : Z;
  date : datetime;
  description : string;
  points : Z;
  remarks : option string }.
End PointHistory.

Module RedeemableItem.
Record t := mk {
  id : Z;
  name : string;
  points_required : Z }.
End RedeemableItem.

Module RedemptionHistory.
Record t := mk {
  id : Z;
  user_id : Z;
  item_id : Z;
  date : datetime;
  points_spent : Z }.
End RedemptionHistory.

Record Database := mkDatabase {
  user_balance : list UserBalance.t;
  point_history : list PointHistory.t;
  redeemable_items : list RedeemableItem.t;
  redemption_history : list RedemptionHistory.t }.

(** [UsePointsRequest] *)
Record UsePointsRequest := mkUsePointsRequest {
  req_user_id : Z;
  req_item_id : Z;
  req_points : Z }.

(** ** Responses and exceptions *)

Inductive Value :=
| VInt (z : Z)
| VStr (s : string)
| VBool (b : bool).

(** A Python dict literal, in key order. *)
Definition dict := list (string * Value).

Fixpoint dict_get (k : string) (d : dict) : option Value :=
  match d with
  | [] => None
  | (k', v) :: d' => if String.eqb k k' then Some v else dict_get k d'
  end.

Inductive Statement := SELECT | UPDATE | INSERT | COMMIT.

(** [HTTPException] is what the handlers raise; [StorageFailure] is an error
    of the driver on the given statement, which no handler catches. *)
Inductive Exception :=
| HTTPException (status_code : Z) (detail : string)
| StorageFailure (stmt : Statement).

(** The status the API surface answers with. *)
Definition http_status {A} (r : Exception + A) : Z :=
  match r with
  | inl (HTTPException c _) => c
  | inl (StorageFailure _) => 500
  | inr _ => 200
  end.

(** ** The session *)

(** Objects handed to [db.add]: no primary key yet, and a date only when the
    constructor was given one. *)
Inductive Pending :=
| NewRedemption (user_id item_id points_spent : Z)
| NewHistory (user_id : Z) (date : option datetime) (description : string)
    (points : Z) (remarks : option string).

Record Session := mkSession {
  committed : Database;
  tx : Database;
  dirty : list (UserBalance.t * Z);
  new : list Pending;
  trips : nat }.

Record Env := mkEnv {
  now : datetime;
  utcnow : datetime;
  fault : option nat }.

Definition M (A : Type) : Type := Env -> Session -> (Exception + A) * Session.

Definition ret {A} (a : A) : M A := fun _ s => (inr a, s).

Definition bind {A B} (m : M A) (k : A -> M B) : M B :=
  fun e s =>
    match m e s with
    | (inl x, s') => (inl x, s')
    | (inr a, s') => k a e s'
    end.

Definition raise {A} (x : Exception) : M A := fun _ s => (inl x, s).

Declare Scope session_scope.
Delimit Scope session_scope with session.
Notation "x <- m ;; k" := (bind m (fun x => k))
  (at level 100, m at next level, right associativity) : session_scope.
Notation "m ;; k" := (bind m (fun _ => k))
  (at level 100, right associativity) : session_scope.
Local Open Scope session_scope.

Definition set_tx (s : Session) (d : Database) : Session :=
  mkSession (committed s) d (dirty s) (new s) (trips s).

(** One statement sent to the storage. *)
Definition execute (stmt : Statement) : M unit :=
  fun e s =>
    let s' := mkSession (committed s) (tx s) (dirty s) (new s) (S (trips s)) in
    match fault e with
    | Some n => if Nat.eqb n (trips s) then (inl (StorageFailure stmt), s')
                else (inr tt, s')
    | None => (inr tt, s')
    end.

(** [db.query(T).filter(p).first()] *)
Definition first {A} (table : Database -> list A) (p : A -> bool) : M (option A) :=
  execute SELECT ;;
  fun _ s => (inr (find p (table (tx s))), s).

Definition with_current_points (b : UserBalance.t) (v : Z) : UserBalance.t :=
  UserBalance.mk (UserBalance.id b) (UserBalance.user_id b) v
    (UserBalance.scheduled_points b) (UserBalance.expiring_points b)
    (UserBalance.updated_at b).

(** [balance.current_points = v] on a loaded row: the object changes in
    memory and the session remembers the loaded row and the new value. *)
Definition set_current_points (balance : UserBalance.t) (v : Z) : M UserBalance.t :=
  fun _ s =>
    (inr (with_current_points balance v),
     mkSession (committed s) (tx s) (dirty s ++ [(balance, v)]) (new s) (trips s)).

(** [db.add(obj)] *)
Definition add (obj : Pending) : M unit :=
  fun _ s =>
    (inr tt, mkSession (committed s) (tx s) (dirty s) (new s ++ [obj]) (trips s)).

(** AUTO_INCREMENT, taken as one more than the largest key of the table. *)
Definition next_id (ids : list Z) : Z := 1 + fold_right Z.max 0 ids.

(** [UPDATE user_balance SET current_points = v, updated_at = t WHERE id = pk];
    [updated_at] carries [onupdate=datetime.utcnow]. *)
Definition update_balance (pk v : Z) (t : datetime) (b : UserBalance.t) : UserBalance.t :=
  if UserBalance.id b =? pk
  then UserBalance.mk (UserBalance.id b) (UserBalance.user_id b) v
         (UserBalance.scheduled_points b) (UserBalance.expiring_points b) t
  else b.

Definition db_update_balance (pk v : Z) (t : datetime) (d : Database) : Database :=
  mkDatabase (map (update_balance pk v t) (user_balance d)) (point_history d)
    (redeemable_items d) (redemption_history d).

(** The INSERT of an added object; the [default=datetime.utcnow] of a date
    column is taken when the constructor gave none. *)
Definition db_insert (obj : Pending) (t : datetime) (d : Database) : Database :=
  match obj with
  | NewRedemption u i p =>
      mkDatabase (user_balance d) (point_history d) (redeemable_items d)
        (redemption_history d ++
         [RedemptionHistory.mk (next_id (map RedemptionHistory.id (redemption_history d)))
            u i t p])
  | NewHistory u dt desc p r =>
      mkDatabase (user_balance d)
        (point_history d ++
         [PointHistory.mk (next_id (map PointHistory.id (point_history d)))
            u (match dt with Some x => x | None => t end) desc p r])
        (redeemable_items d) (redemption_history d)
  end.

(** The flush writes into the open transaction only.  An attribute whose new
    value equals the loaded one is no net change and sends no UPDATE. *)
Fixpoint flush_dirty (l : list (UserBalance.t * Z)) : M unit :=
  match l with
  | [] => ret tt
  | (row, v) :: l' =>
      (if v =? UserBalance.current_points row then ret tt
       else
         execute UPDATE ;;
         fun e s =>
           (inr tt, set_tx s (db_update_balance (UserBalance.id row) v (utcnow e) (tx s)))) ;;
      flush_dirty l'
  end.

Fixpoint flush_new (l : list Pending) : M unit :=
  match l with
  | [] => ret tt
  | obj :: l' =>
      execute INSERT ;;
      (fun e s => (inr tt, set_tx s (db_insert obj (utcnow e) (tx s)))) ;;
      flush_new l'
  end.

Definition flush : M unit :=
  fun e s => (flush_dirty (dirty s) ;; flush_new (new s)) e s.

(** [db.commit()]: flush, then COMMIT makes the transaction's view the
    committed database and empties the unit of work. *)
Definition commit : M unit :=
  flush ;;
  execute COMMIT ;;
  fun _ s => (inr tt, mkSession (tx s) (tx s) [] [] (trips s)).

(** Reading an attribute of [balance] after the commit: the session expired
    the object, so it is loaded again by primary key. *)
Definition refresh (balance : UserBalance.t) : M UserBalance.t :=
  row <- first user_balance (fun b => UserBalance.id b =? UserBalance.id balance) ;;
  match row with
  | Some b => ret b
  | None => raise (StorageFailure SELECT)
  end.

(** [get_db]: a fresh session per request. *)
Definition SessionLocal (db : Database) : Session := mkSession db db [] [] 0.

(** A request: the handler runs in a fresh session, and [db.close()] in the
    [finally] of [get_db] drops whatever the open transaction holds, so that
    the storage is left with the committed database. *)
Definition run {A} (handler : M A) (e : Env) (db : Database) : (Exception + A) * Database :=
  let (r, s) := handler e (SessionLocal db) in (r, committed s).

(** ** Read accessors *)

(** A [response_model] keeps the declared fields of what the handler
    returned; a missing field is a validation error of the response. *)
Definition BalanceResponse : list string :=
  ["user_id"; "current_points"; "expiring_points"]%string.

Fixpoint response_model (fields : list string) (d : dict) : option dict :=
  match fields with
  | [] => Some []
  | f :: fs =>
      match dict_get f d, response_model fs d with
      | Some v, Some out => Some ((f, v) :: out)
      | _, _ => None
      end
  end.

Definition respond (fields : list string) (d : dict) : M dict :=
  match response_model fields d with
  | Some out => ret out
  | None => raise (HTTPException 500 "Internal Server Error")
  end.

Definition get_user_balance (user_id : Z) : M dict :=
  balance <- first user_balance (fun b => UserBalance.user_id b =? user_id) ;;
  match balance with
  | None => raise (HTTPException 404 "User not found")
  | Some balance =>
      respond BalanceResponse
        [("user_id"%string, VInt user_id);
         ("current_points"%string, VInt (UserBalance.current_points balance));
         ("expiring_points"%string, VInt (UserBalance.expiring_points balance))]
  end.

(** The query object that [get_point_history] builds step by step. *)
Record Query := mkQuery {
  q_where : PointHistory.t -> bool;
  q_order_desc_date : bool;
  q_limit : option Z }.

Definition query_filter (q : Query) (p : PointHistory.t -> bool) : Query :=
  mkQuery (fun h => q_where q h && p h) (q_order_desc_date q) (q_limit q).

Definition query_order_by_desc_date (q : Query) : Query :=
  mkQuery (q_where q) true (q_limit q).

Definition query_limit (q : Query) (n : Z) : Query :=
  mkQuery (q_where q) (q_order_desc_date q) (Some n).

(** ORDER BY date DESC, as a stable insertion sort: rows of equal date keep
    their storage order. *)
Fixpoint insert_desc (h : PointHistory.t) (l : list PointHistory.t) : list PointHistory.t :=
  match l with
  | [] => [h]
  | x :: t =>
      if PointHistory.date h <? PointHistory.date x then x :: insert_desc h t
      else h :: l
  end.

Definition sort_desc (l : list PointHistory.t) : list PointHistory.t :=
  fold_right insert_desc [] l.

(** [query.all()]: one SELECT.  The server refuses a negative LIMIT. *)
Definition query_all (q : Query) : M (list PointHistory.t) :=
  execute SELECT ;;
  fun _ s =>
    let rows := filter (q_where q) (point_history (tx s)) in
    let rows := if q_order_desc_date q then sort_desc rows else rows in
    match q_limit q with
    | None => (inr rows, s)
    | Some n =>
        if n <? 0 then (inl (StorageFailure SELECT), s)
        else (inr (firstn (Z.to_nat n) rows), s)
    end.

(** Python truth value of an [Optional[int]]. *)
Definition truthy (limit : option Z) : bool :=
  match limit with
  | Some n => negb (n =? 0)
  | None => false
  end.

Definition is_str (x : option string) (s : string) : bool :=
  match x with
  | Some y => String.eqb y s
  | None => false
  end.

Definition get_point_history (user_id : Z) (limit : option Z)
    (filter_type : option string) : M (list PointHistory.t) :=
  let query := mkQuery (fun h => PointHistory.user_id h =? user_id) false None in
  let query :=
    if is_str filter_type "earned"
    then query_filter query (fun h => PointHistory.points h >? 0)
    else if is_str filter_type "used"
    then query_filter query (fun h => PointHistory.points h <? 0)
    else query in
  let query := query_order_by_desc_date query in
  let query :=
    if truthy limit then query_limit query (match limit with Some n => n | None => 0 end)
    else query in
  query_all query.

(** The defaults of the query parameters: [Query(5)] and [Query(None)]. *)
Definition get_point_history_endpoint (user_id : Z) (limit : option (option Z))
    (filter_type : option (option string)) : M (list PointHistory.t) :=
  get_point_history user_id
    (match limit with Some l => l | None => Some 5 end)
    (match filter_type with Some f => f | None => None end).

(** ** Redemption *)

Definition redeem_points_legacy (user_id item_id : Z) : M dict :=
  item <- first redeemable_items (fun i => RedeemableItem.id i =? item_id) ;;
  match item with
  | None => raise (HTTPException 404 "Item not found")
  | Some item =>
      balance <- first user_balance (fun b => UserBalance.user_id b =? user_id) ;;
      match balance with
      | None => raise (HTTPException 404 "User not found")
      | Some balance =>
          if UserBalance.current_points balance <? RedeemableItem.points_required item
          then raise (HTTPException 400 "Not enough points")
          else
            balance <- set_current_points balance
              (UserBalance.current_points balance - RedeemableItem.points_required item) ;;
            add (NewRedemption user_id item_id (RedeemableItem.points_required item)) ;;
            add (NewHistory user_id None
                   (RedeemableItem.name item ++ "と交換")%string
                   (- RedeemableItem.points_required item) None) ;;
            commit ;;
            balance <- refresh balance ;;
            ret [("message"%string, VStr "ポイント交換が完了しました");
                 ("new_balance"%string, VInt (UserBalance.current_points balance))]
      end
  end.

Definition use_points (request : UsePointsRequest) : M dict :=
  item <- first redeemable_items (fun i => RedeemableItem.id i =? req_item_id request) ;;
  match item with
  | None => raise (HTTPException 404 "Item not found")
  | Some item =>
      balance <- first user_balance (fun b => UserBalance.user_id b =? req_user_id request) ;;
      match balance with
      | None => raise (HTTPException 404 "User not found")
      | Some balance =>
          if UserBalance.current_points balance <? req_points request
          then raise (HTTPException 400 "Not enough points")
          else
            balance <- set_current_points balance
              (UserBalance.current_points balance - req_points request) ;;
            add (NewRedemption (req_user_id request) (req_item_id request)
                   (req_points request)) ;;
            (fun e =>
               add (NewHistory (req_user_id request) (Some (now e))
                      (RedeemableItem.name item ++ "と交換")%string
                      (- req_points request)
                      (Some ("アイテム交換: " ++ RedeemableItem.name item)%string)) e) ;;
            commit ;;
            balance <- refresh balance ;;
            ret [("success"%string, VBool true);
                 ("message"%string, VStr "ポイント交換が完了しました");
                 ("remaining_points"%string, VInt (UserBalance.current_points balance))]
      end
  end.

(** The two request shapes of a redemption. *)
Inductive Redemption :=
| FixedPrice (user_id item_id : Z)
| FlexibleAmount (request : UsePointsRequest).

Definition redeem (op : Redemption) : M dict :=
  match op with
  | FixedPrice u i => redeem_points_legacy u i
  | FlexibleAmount request => use_points request
  end.

(** ** The remaining read handlers *)

Module User.
Record t := mk {
  id : Z;
  name : string;
  company_name : string }.
End User.

(** [db.query(T).all()] and [db.query(T).filter(p).all()], rows in storage
    order. *)
Definition all {A} (table : Database -> list A) : M (list A) :=
  execute SELECT ;;
  fun _ s => (inr (table (tx s)), s).

Definition all_where {A} (table : Database -> list A) (p : A -> bool) : M (list A) :=
  execute SELECT ;;
  fun _ s => (inr (filter p (table (tx s))), s).

(** No handler writes the [users] table: its rows are given to the two
    handlers that read it instead of being carried by the session. *)
Definition get_users (users : list User.t) : M (list User.t) :=
  users <- (execute SELECT ;; ret users) ;;
  ret users.

Definition get_user (users : list User.t) (user_id : Z) : M User.t :=
  user <- (execute SELECT ;; ret (find (fun u => User.id u =? user_id) users)) ;;
  match user with
  | None => raise (HTTPException 404 "User not found")
  | Some user => ret user
  end.

(** The dict the legacy history endpoint builds for a row. *)
Definition legacy_entry (h : PointHistory.t) : dict :=
  [("date"%string, VInt (PointHistory.date h));
   ("description"%string, VStr (PointHistory.description h));
   ("points"%string, VInt (PointHistory.points h))].

Definition get_point_history_legacy (user_id : Z) : M (list dict) :=
  history <- all_where point_history (fun h => PointHistory.user_id h =? user_id) ;;
  ret (map legacy_entry history).

Definition get_redeemable_items : M (list RedeemableItem.t) :=
  all redeemable_items.

(** ** Vocabulary of the statements *)

(** The Balance row and the catalog item that the lookups of a request
    resolve to. *)
Definition balance_of (db : Database) (user_id : Z) : option UserBalance.t :=
  find (fun b => UserBalance.user_id b =? user_id) (user_balance db).

Definition item_of (db : Database) (item_id : Z) : option RedeemableItem.t :=
  find (fun i => RedeemableItem.id i =? item_id) (redeemable_items db).

Definition op_user_id (op : Redemption) : Z :=
  match op with
  | FixedPrice u _ => u
  | FlexibleAmount request => req_user_id request
  end.

Definition op_item_id (op : Redemption) : Z :=
  match op with
  | FixedPrice _ i => i
  | FlexibleAmount request => req_item_id request
  end.

(** The amount a redemption debits: the price of the item on the fixed-price
    path, the points of the request on the flexible path. *)
Definition debit_amount (op : Redemption) (item : RedeemableItem.t) : Z :=
  match op with
  | FixedPrice _ _ => RedeemableItem.points_required item
  | FlexibleAmount request => req_points request
  end.

(** The balance a successful response carries, under either key. *)
Definition response_balance (op : Redemption) (resp : dict) : option Value :=
  match op with
  | FixedPrice _ _ => dict_get "new_balance" resp
  | FlexibleAmount _ => dict_get "remaining_points" resp
  end.

Definition success_response (op : Redemption) (balance : Z) : dict :=
  match op with
  | FixedPrice _ _ =>
      [("message"%string, VStr "ポイント交換が完了しました");
       ("new_balance"%string, VInt balance)]
  | FlexibleAmount _ =>
      [("success"%string, VBool true);
       ("message"%string, VStr "ポイント交換が完了しました");
       ("remaining_points"%string, VInt balance)]
  end.

(** The unit of work a redemption hands to [db.commit()]. *)
Definition op_dirty (op : Redemption) (item : RedeemableItem.t)
    (balance : UserBalance.t) : list (UserBalance.t * Z) :=
  [(balance, UserBalance.current_points balance - debit_amount op item)].

Definition op_new (e : Env) (op : Redemption) (item : RedeemableItem.t) : list Pending :=
  match op with
  | FixedPrice u i =>
      [NewRedemption u i (RedeemableItem.points_required item);
       NewHistory u None (RedeemableItem.name item ++ "と交換")%string
         (- RedeemableItem.points_required item) None]
  | FlexibleAmount request =>
      [NewRedemption (req_user_id request) (req_item_id request) (req_points request);
       NewHistory (req_user_id request) (Some (now e))
         (RedeemableItem.name item ++ "と交換")%string
         (- req_points request)
         (Some ("アイテム交換: " ++ RedeemableItem.name item)%string)]
  end.

(** The effect of a whole flush on a database. *)
Definition apply_dirty (t : datetime) (d : Database) (x : UserBalance.t * Z) : Database :=
  if snd x =? UserBalance.current_points (fst x) then d
  else db_update_balance (UserBalance.id (fst x)) (snd x) t d.

Definition apply_unit (t : datetime) (ds : list (UserBalance.t * Z))
    (ns : list Pending) (d : Database) : Database :=
  fold_left (fun d obj => db_insert obj t d) ns (fold_left (apply_dirty t) ds d).

(** The database after a redemption that went through. *)
Definition redeemed (e : Env) (op : Redemption) (item : RedeemableItem.t)
    (balance : UserBalance.t) (db : Database) : Database :=
  apply_unit (utcnow e) (op_dirty op item balance) (op_new e op item) db.

(** Primary keys of [user_balance] are pairwise distinct. *)
Definition primary_keys_unique (db : Database) : Prop :=
  NoDup (map UserBalance.id (user_balance db)).

(** The row a redemption leaves for the user. *)
Definition debited (e : Env) (balance : UserBalance.t) (amount : Z) : UserBalance.t :=
  if amount =? 0 then balance
  else UserBalance.mk (UserBalance.id balance) (UserBalance.user_id balance)
         (UserBalance.current_points balance - amount)
         (UserBalance.scheduled_points balance) (UserBalance.expiring_points balance)
         (utcnow e).

(** What C5 compares: two history entries that agree on everything but the
    date and the remarks, and two results that signal the same exception or
    carry the same balance. *)
Definition same_entry (h1 h2 : PointHistory.t) : Prop :=
  PointHistory.id h1 = PointHistory.id h2 /\
  PointHistory.user_id h1 = PointHistory.user_id h2 /\
  PointHistory.description h1 = PointHistory.description h2 /\
  PointHistory.points h1 = PointHistory.points h2.

Definition same_result (legacy flexible : Exception + dict) : Prop :=
  match legacy, flexible with
  | inl x, inl y => x = y
  | inr a, inr b =>
      exists v, dict_get "new_balance" a = Some v /\
                dict_get "remaining_points" b = Some v
  | _, _ => False
  end.

(** C6 as the data model words it: every RedemptionRecord a redemption
    produces has a positive [points_spent]. *)
Definition every_record_spends_positive : Prop :=
  forall e db op resp db' rec,
    run (redeem op) e db = (inr resp, db') ->
    In rec (redemption_history db') ->
    ~ In rec (redemption_history db) ->
    0 < RedemptionHistory.points_spent rec.

(** Every stored [scheduled_points] overwritten by [v]. *)
Definition set_scheduled (v : Z) (db : Database) : Database :=
  mkDatabase
    (map (fun b => UserBalance.mk (UserBalance.id b) (UserBalance.user_id b)
                     (UserBalance.current_points b) v
                     (UserBalance.expiring_points b) (UserBalance.updated_at b))
         (user_balance db))
    (point_history db) (redeemable_items db) (redemption_history db).

(** ORDER BY date DESC: no row is older than one after it. *)
Definition newer_first (a b : PointHistory.t) : Prop :=
  PointHistory.date b <= PointHistory.date a.

(** The rows [get_point_history] asks for: those of the user, restricted by
    the filter type. *)
Definition wanted (user_id : Z) (filter_type : option string)
    (h : PointHistory.t) : bool :=
  (PointHistory.user_id h =? user_id) &&
  (if is_str filter_type "earned" then 0 <? PointHistory.points h
   else if is_str filter_type "used" then PointHistory.points h <? 0
   else true).

(** The same, as the specification words it. *)
Definition selected (user_id : Z) (filter_type : option string)
    (h : PointHistory.t) : Prop :=
  PointHistory.user_id h = user_id /\
  (filter_type = Some "earned"%string -> 0 < PointHistory.points h) /\
  (filter_type = Some "used"%string -> PointHistory.points h < 0).

(** The whole listing, newest first, before any LIMIT. *)
Definition listing (db : Database) (user_id : Z) (filter_type : option string)
    : list PointHistory.t :=
  sort_desc (filter (wanted user_id filter_type) (point_history db)).

(** The session after one more round trip. *)
Definition bump (s : Session) : Session :=
  mkSession (committed s) (tx s) (dirty s) (new s) (S (trips s)).

(** The points of a user's history entries, summed. *)
Definition points_total (user_id : Z) (l : list PointHistory.t) : Z :=
  fold_right Z.add 0
    (map PointHistory.points
       (filter (fun h => PointHistory.user_id h =? user_id) l)).

(** What a user's balance holds beyond what the history accounts for. *)
Definition ledger_gap (db : Database) (user_id : Z) : option Z :=
  option_map
    (fun b => UserBalance.current_points b - points_total user_id (point_history db))
    (balance_of db user_id).

(** The history rows of a user that neither filter type selects. *)
Definition zero_point_rows (db : Database) (user_id : Z) : list PointHistory.t :=
  filter (fun h => (PointHistory.user_id h =? user_id) && (PointHistory.points h =? 0))
    (point_history db).

(** ** Sample data *)

(** One user with 100 points, 7 of them scheduled and 5 expiring, and one
    item priced at 30. *)
Definition sample_db : Database :=
  mkDatabase
    [UserBalance.mk 1 1 100 7 5 0]
    []
    [RedeemableItem.mk 1 "Coffee" 30]
    [].

(** A storage that answers every statement, and one that fails on round
    trip [n]. *)
Definition sample_env : Env := mkEnv 1000 900 None.

Definition failing_env (n : nat) : Env := mkEnv 1000 900 (Some n).

(** The entries of the filtering scenario: points [+10, -5, +20, -3] on four
    consecutive days, for user 1. *)
Definition history_db : Database :=
  mkDatabase
    [UserBalance.mk 1 1 100 7 5 0]
    [PointHistory.mk 1 1 10 "bonus" 10 None;
     PointHistory.mk 2 1 20 "coffee" (-5) None;
     PointHistory.mk 3 1 30 "bonus" 20 None;
     PointHistory.mk 4 1 40 "tea" (-3) None]
    [RedeemableItem.mk 1 "Coffee" 30]
    [].

(** Ten entries of user 1, dated 1 to 10 in storage order. *)
Definition ten_entries_db : Database :=
  mkDatabase
    [UserBalance.mk 1 1 100 7 5 0]
    (map (fun d => PointHistory.mk d 1 d "entry" d None) [1; 2; 3; 4; 5; 6; 7; 8; 9; 10])
    [RedeemableItem.mk 1 "Coffee" 30]
    [].

(** * Properties *)

(** ** The session primitives *)

Lemma execute_cases stmt e s :
  (execute stmt e s = (inl (StorageFailure stmt), bump s) /\ fault e <> None) \/
  execute stmt e s = (inr tt, bump s).
Proof.
  unfold execute, bump. destruct (fault e) as [n|]; [|now right].
  destruct (Nat.eqb n (trips s)); [left; split; [reflexivity | discriminate] | now right].
Qed.

Lemma execute_ok stmt e s :
  fault e = None -> execute stmt e s = (inr tt, bump s).
Proof. intros H. unfold execute, bump. now rewrite H. Qed.

Lemma first_cases {A} (table : Database -> list A) p e s :
  (first table p e s = (inl (StorageFailure SELECT), bump s) /\ fault e <> None) \/
  first table p e s = (inr (find p (table (tx s))), bump s).
Proof.
  unfold first, bind.
  destruct (execute_cases SELECT e s) as [[H F]|H]; rewrite H; [now left | now right].
Qed.

Lemma first_ok {A} (table : Database -> list A) p e s :
  fault e = None -> first table p e s = (inr (find p (table (tx s))), bump s).
Proof. intros H. unfold first, bind. now rewrite (execute_ok _ _ _ H). Qed.

Lemma apply_dirty_same t d row v :
  (v =? UserBalance.current_points row) = true -> apply_dirty t d (row, v) = d.
Proof. intros H. unfold apply_dirty. cbn [fst snd]. now rewrite H. Qed.

Lemma apply_dirty_diff t d row v :
  (v =? UserBalance.current_points row) = false ->
  apply_dirty t d (row, v) = db_update_balance (UserBalance.id row) v t d.
Proof. intros H. unfold apply_dirty. cbn [fst snd]. now rewrite H. Qed.

(** A flush either fails on one of its statements, leaving the committed
    database alone, or brings the transaction's view to the database with
    every change applied. *)
Lemma flush_dirty_cases l : forall e s,
  (exists s', flush_dirty l e s = (inl (StorageFailure UPDATE), s') /\
              committed s' = committed s /\ fault e <> None) \/
  (exists n, flush_dirty l e s =
     (inr tt, mkSession (committed s) (fold_left (apply_dirty (utcnow e)) l (tx s))
                (dirty s) (new s) n)).
Proof.
  induction l as [|[row v] l IH]; intros e s.
  - right. exists (trips s). destruct s; reflexivity.
  - cbn [flush_dirty fold_left]. unfold bind.
    destruct (v =? UserBalance.current_points row) eqn:E.
    + rewrite (apply_dirty_same _ _ _ _ E). unfold ret. apply IH.
    + rewrite (apply_dirty_diff _ _ _ _ E).
      destruct (execute_cases UPDATE e s) as [[H F]|H]; rewrite H.
      * left. eexists; split; [reflexivity | split; [reflexivity | exact F]].
      * destruct (IH e (set_tx (bump s)
                   (db_update_balance (UserBalance.id row) v (utcnow e) (tx (bump s)))))
          as [[s' [H1 [H2 F]]]|[n H1]]; rewrite H1.
        -- left. exists s'. split; [reflexivity | split; [exact H2 | exact F]].
        -- right. exists n. reflexivity.
Qed.

Lemma flush_new_cases l : forall e s,
  (exists s', flush_new l e s = (inl (StorageFailure INSERT), s') /\
              committed s' = committed s /\ fault e <> None) \/
  (exists n, flush_new l e s =
     (inr tt, mkSession (committed s)
                (fold_left (fun d obj => db_insert obj (utcnow e) d) l (tx s))
                (dirty s) (new s) n)).
Proof.
  induction l as [|obj l IH]; intros e s.
  - right. exists (trips s). destruct s; reflexivity.
  - cbn [flush_new fold_left]. unfold bind.
    destruct (execute_cases INSERT e s) as [[H F]|H]; rewrite H.
    + left. eexists; split; [reflexivity | split; [reflexivity | exact F]].
    + destruct (IH e (set_tx (bump s) (db_insert obj (utcnow e) (tx (bump s)))))
        as [[s' [H1 [H2 F]]]|[n H1]]; rewrite H1.
      * left. exists s'. split; [reflexivity | split; [exact H2 | exact F]].
      * right. exists n. reflexivity.
Qed.

Lemma commit_cases e s :
  (exists stmt s', commit e s = (inl (StorageFailure stmt), s') /\
                   stmt <> SELECT /\ committed s' = committed s /\ fault e <> None) \/
  (exists n, commit e s =
     (inr tt,
      let d := apply_unit (utcnow e) (dirty s) (new s) (tx s) in
      mkSession d d [] [] n)).
Proof.
  unfold commit, flush, bind, apply_unit.
  destruct (flush_dirty_cases (dirty s) e s) as [[s1 [H1 [C1 F]]]|[n1 H1]]; rewrite H1.
  { left. exists UPDATE, s1. split; [reflexivity | split; [discriminate | split; [exact C1 | exact F]]]. }
  match goal with |- context [flush_new ?l e ?s0] =>
    destruct (flush_new_cases l e s0) as [[s2 [H2 [C2 F]]]|[n2 H2]]; rewrite H2 end.
  { left. exists INSERT, s2. split; [reflexivity | split; [discriminate | split; [exact C2 | exact F]]]. }
  match goal with |- context [execute COMMIT e ?s0] =>
    destruct (execute_cases COMMIT e s0) as [[H3 F]|H3]; rewrite H3 end.
  { left. eexists COMMIT, _. split; [reflexivity | split; [discriminate | split; [reflexivity | exact F]]]. }
  right. exists (S n2). reflexivity.
Qed.

Lemma commit_ok e s :
  fault e = None ->
  exists n, commit e s =
    (inr tt,
     let d := apply_unit (utcnow e) (dirty s) (new s) (tx s) in
     mkSession d d [] [] n).
Proof.
  intros F. destruct (commit_cases e s) as [[stmt [s' [_ [_ [_ N]]]]]|H];
    [contradiction | exact H].
Qed.

(** ** The tables after a redemption *)

Lemma fold_insert_user_balance t ns : forall d,
  user_balance (fold_left (fun d obj => db_insert obj t d) ns d) = user_balance d.
Proof.
  induction ns as [|obj ns IH]; intros d; [reflexivity|].
  cbn [fold_left]. rewrite IH. destruct obj; reflexivity.
Qed.

Lemma fold_insert_redeemable_items t ns : forall d,
  redeemable_items (fold_left (fun d obj => db_insert obj t d) ns d) = redeemable_items d.
Proof.
  induction ns as [|obj ns IH]; intros d; [reflexivity|].
  cbn [fold_left]. rewrite IH. destruct obj; reflexivity.
Qed.

Lemma redeemed_user_balance e op item balance db :
  user_balance (redeemed e op item balance db) =
  if debit_amount op item =? 0 then user_balance db
  else map (update_balance (UserBalance.id balance)
              (UserBalance.current_points balance - debit_amount op item) (utcnow e))
           (user_balance db).
Proof.
  unfold redeemed, apply_unit. rewrite fold_insert_user_balance.
  unfold op_dirty. cbn [fold_left]. unfold apply_dirty. cbn [fst snd].
  destruct (Z.eqb_spec (debit_amount op item) 0) as [E|E];
    destruct (Z.eqb_spec (UserBalance.current_points balance - debit_amount op item)
                (UserBalance.current_points balance)) as [E'|E']; try lia; reflexivity.
Qed.

Lemma redeemed_redeemable_items e op item balance db :
  redeemable_items (redeemed e op item balance db) = redeemable_items db.
Proof.
  unfold redeemed, apply_unit. rewrite fold_insert_redeemable_items.
  unfold op_dirty. cbn [fold_left]. unfold apply_dirty.
  destruct (_ =? _); reflexivity.
Qed.

Lemma redeemed_redemption_history e op item balance db :
  redemption_history (redeemed e op item balance db) =
  redemption_history db ++
  [RedemptionHistory.mk (next_id (map RedemptionHistory.id (redemption_history db)))
     (op_user_id op) (op_item_id op) (utcnow e) (debit_amount op item)].
Proof.
  unfold redeemed, apply_unit, op_dirty. cbn [fold_left]. unfold apply_dirty.
  destruct (_ =? _); destruct op; reflexivity.
Qed.

Lemma redeemed_point_history e op item balance db :
  point_history (redeemed e op item balance db) =
  point_history db ++
  [PointHistory.mk (next_id (map PointHistory.id (point_history db)))
     (op_user_id op)
     (match op with FixedPrice _ _ => utcnow e | FlexibleAmount _ => now e end)
     (RedeemableItem.name item ++ "と交換")%string
     (- debit_amount op item)
     (match op with
      | FixedPrice _ _ => None
      | FlexibleAmount _ => Some ("アイテム交換: " ++ RedeemableItem.name item)%string
      end)].
Proof.
  unfold redeemed, apply_unit, op_dirty. cbn [fold_left]. unfold apply_dirty.
  destruct (_ =? _); destruct op; reflexivity.
Qed.

Lemma update_balance_id pk v t b :
  UserBalance.id (update_balance pk v t b) = UserBalance.id b.
Proof. unfold update_balance. destruct (_ =? _); reflexivity. Qed.

Lemma update_balance_user_id pk v t b :
  UserBalance.user_id (update_balance pk v t b) = UserBalance.user_id b.
Proof. unfold update_balance. destruct (_ =? _); reflexivity. Qed.

Lemma find_map_stable {A} (p : A -> bool) (f : A -> A) l :
  (forall x, p (f x) = p x) -> find p (map f l) = option_map f (find p l).
Proof.
  intros H. induction l as [|x l IH]; [reflexivity|].
  cbn [map find]. rewrite H. destruct (p x); [reflexivity | exact IH].
Qed.

Lemma find_In_some {A} (p : A -> bool) l x :
  In x l -> p x = true -> exists y, find p l = Some y.
Proof.
  intros HI Hp. destruct (find p l) as [y|] eqn:E; [now exists y|].
  rewrite (find_none p l E x HI) in Hp. discriminate.
Qed.

(** Under distinct primary keys, a row of the table is the one its key
    finds. *)
Lemma find_by_primary_key l : forall b,
  NoDup (map UserBalance.id l) -> In b l ->
  find (fun x => UserBalance.id x =? UserBalance.id b) l = Some b.
Proof.
  induction l as [|x l IH]; intros b ND HI; [destruct HI|].
  cbn [map] in ND. inversion ND as [|? ? Hx ND']; subst.
  cbn [find]. destruct HI as [->|HI].
  - now rewrite Z.eqb_refl.
  - destruct (Z.eqb_spec (UserBalance.id x) (UserBalance.id b)) as [E|E].
    + exfalso. apply Hx. rewrite E. now apply in_map.
    + now apply IH.
Qed.

Lemma debited_current_points e balance amount :
  UserBalance.current_points (debited e balance amount) =
  UserBalance.current_points balance - amount.
Proof.
  unfold debited. destruct (Z.eqb_spec amount 0) as [->|_]; cbn; lia.
Qed.

Lemma balance_of_redeemed e op item balance db :
  balance_of db (op_user_id op) = Some balance ->
  balance_of (redeemed e op item balance db) (op_user_id op) =
  Some (debited e balance (debit_amount op item)).
Proof.
  unfold balance_of. intros H. rewrite redeemed_user_balance. unfold debited.
  destruct (debit_amount op item =? 0); [exact H|].
  rewrite find_map_stable by (intros x; now rewrite update_balance_user_id).
  rewrite H. cbn [option_map]. unfold update_balance. now rewrite Z.eqb_refl.
Qed.

Lemma reload_redeemed_some e op item balance db uid :
  balance_of db uid = Some balance ->
  exists b,
    find (fun x => UserBalance.id x =? UserBalance.id balance)
      (user_balance (redeemed e op item balance db)) = Some b.
Proof.
  unfold balance_of. intros H. apply find_some in H. destruct H as [HI _].
  rewrite redeemed_user_balance.
  destruct (debit_amount op item =? 0).
  - apply find_In_some with (x := balance); [exact HI | apply Z.eqb_refl].
  - rewrite find_map_stable by (intros x; now rewrite update_balance_id).
    destruct (find_In_some (fun x => UserBalance.id x =? UserBalance.id balance)
                _ balance HI (Z.eqb_refl _)) as [y ->].
    eexists; reflexivity.
Qed.

Lemma reload_redeemed e op item balance db uid :
  primary_keys_unique db ->
  balance_of db uid = Some balance ->
  find (fun x => UserBalance.id x =? UserBalance.id balance)
    (user_balance (redeemed e op item balance db)) =
  Some (debited e balance (debit_amount op item)).
Proof.
  unfold balance_of, primary_keys_unique. intros ND H.
  apply find_some in H. destruct H as [HI _].
  rewrite redeemed_user_balance. unfold debited.
  destruct (debit_amount op item =? 0).
  - now apply find_by_primary_key.
  - rewrite find_map_stable by (intros x; now rewrite update_balance_id).
    rewrite (find_by_primary_key _ _ ND HI). cbn [option_map].
    unfold update_balance. now rewrite Z.eqb_refl.
Qed.

(** ** Every outcome of a redemption *)

Ltac step_first F :=
  match goal with |- context [first ?t ?p ?e ?s] =>
    let H := fresh "H" in
    destruct (first_cases t p e s) as [[H F]|H]; rewrite H; clear H
  end.

Ltac storage_failed F :=
  left; split; [exact F | eexists; reflexivity].

(** The handlers differ in where the amount and the ids come from, not in
    their steps: one script runs both, statement by statement. *)
Ltac run_redemption e db op uid :=
  let F := fresh "F" in
  unfold bind;
  (step_first F; [storage_failed F|]);
  cbn [tx bump SessionLocal];
  (destruct (find _ (redeemable_items db)) as [item|]; [|right; reflexivity]);
  (step_first F; [storage_failed F|]);
  cbn [tx bump SessionLocal];
  change (find _ (user_balance db)) with (balance_of db uid);
  let EB := fresh "EB" in
  (destruct (balance_of db uid) as [balance|] eqn:EB; [|right; reflexivity]);
  (destruct (_ <? _); [right; reflexivity|]);
  unfold set_current_points, add;
  cbn [committed tx dirty new trips bump SessionLocal app];
  match goal with |- context [commit e ?s] =>
    let stmt := fresh "stmt" in
    let HC := fresh "HC" in
    let HK := fresh "HK" in
    destruct (commit_cases e s) as [[stmt [? [HC [_ [HK F]]]]]|[? HC]];
    rewrite HC; clear HC;
    [left; split; [exact F|]; exists stmt; cbn [committed] in HK; now rewrite HK|]
  end;
  cbn [committed tx dirty new trips];
  change (apply_unit _ _ _ db) with (redeemed e op item balance db);
  right; unfold refresh, with_current_points, bind; cbn [UserBalance.id];
  (step_first F; [left; split; [exact F | reflexivity]|]);
  cbn [tx bump];
  let b := fresh "b" in
  let Hb := fresh "Hb" in
  destruct (reload_redeemed_some e op item balance db uid EB) as [b Hb];
  rewrite Hb; right; exists b; split; reflexivity.

(** Whatever the fault plan, a redemption either fails on the storage with
    the database as it was, or answers as its checks say; past the checks it
    leaves the database with the whole unit of work applied, and only the
    reload of the balance for the response can still fail. *)
Lemma redeem_outcome e db op :
  (fault e <> None /\
   exists stmt, run (redeem op) e db = (inl (StorageFailure stmt), db)) \/
  match item_of db (op_item_id op) with
  | None => run (redeem op) e db = (inl (HTTPException 404 "Item not found"), db)
  | Some item =>
      match balance_of db (op_user_id op) with
      | None => run (redeem op) e db = (inl (HTTPException 404 "User not found"), db)
      | Some balance =>
          if UserBalance.current_points balance <? debit_amount op item
          then run (redeem op) e db = (inl (HTTPException 400 "Not enough points"), db)
          else
            (fault e <> None /\
             run (redeem op) e db =
             (inl (StorageFailure SELECT), redeemed e op item balance db)) \/
            (exists b,
               find (fun x => UserBalance.id x =? UserBalance.id balance)
                 (user_balance (redeemed e op item balance db)) = Some b /\
               run (redeem op) e db =
               (inr (success_response op (UserBalance.current_points b)),
                redeemed e op item balance db))
      end
  end.
Proof.
  unfold run, item_of.
  destruct op as [u i|request]; cbn [redeem op_item_id op_user_id debit_amount].
  - unfold redeem_points_legacy. run_redemption e db (FixedPrice u i) u.
  - unfold use_points.
    run_redemption e db (FlexibleAmount request) (req_user_id request).
Qed.

(** Without a storage fault the outcome is decided by the checks alone. *)
Lemma redeem_no_fault e db op :
  fault e = None ->
  match item_of db (op_item_id op) with
  | None => run (redeem op) e db = (inl (HTTPException 404 "Item not found"), db)
  | Some item =>
      match balance_of db (op_user_id op) with
      | None => run (redeem op) e db = (inl (HTTPException 404 "User not found"), db)
      | Some balance =>
          if UserBalance.current_points balance <? debit_amount op item
          then run (redeem op) e db = (inl (HTTPException 400 "Not enough points"), db)
          else
            exists b,
              find (fun x => UserBalance.id x =? UserBalance.id balance)
                (user_balance (redeemed e op item balance db)) = Some b /\
              run (redeem op) e db =
              (inr (success_response op (UserBalance.current_points b)),
               redeemed e op item balance db)
      end
  end.
Proof.
  intros F. destruct (redeem_outcome e db op) as [[N _]|H]; [contradiction|].
  destruct (item_of db (op_item_id op)) as [item|]; [|exact H].
  destruct (balance_of db (op_user_id op)) as [balance|]; [|exact H].
  destruct (_ <? _); [exact H|].
  destruct H as [[N _]|H]; [contradiction | exact H].
Qed.

(** A redemption that answered with success passed every check and left the
    database with its unit of work applied. *)
Lemma redeem_success_inv e db op resp db' :
  run (redeem op) e db = (inr resp, db') ->
  exists item balance b,
    item_of db (op_item_id op) = Some item /\
    balance_of db (op_user_id op) = Some balance /\
    debit_amount op item <= UserBalance.current_points balance /\
    db' = redeemed e op item balance db /\
    find (fun x => UserBalance.id x =? UserBalance.id balance)
      (user_balance db') = Some b /\
    resp = success_response op (UserBalance.current_points b).
Proof.
  intros R. destruct (redeem_outcome e db op) as [[_ [stmt H]]|H];
    [rewrite H in R; discriminate|].
  destruct (item_of db (op_item_id op)) as [item|];
    [|rewrite H in R; discriminate].
  destruct (balance_of db (op_user_id op)) as [balance|];
    [|rewrite H in R; discriminate].
  destruct (Z.ltb_spec (UserBalance.current_points balance) (debit_amount op item))
    as [L|L]; [rewrite H in R; discriminate|].
  destruct H as [[_ H]|[b [Hb H]]]; [rewrite H in R; discriminate|].
  rewrite H in R. inversion R; subst.
  exists item, balance, b. repeat split; [exact L | exact Hb].
Qed.

Lemma sample_keys_unique : primary_keys_unique sample_db.
Proof.
  unfold primary_keys_unique. cbn. constructor; [intros []|constructor].
Defined.

(** ** The redemption transaction *)

(** C1.  With the item and the user's Balance row in storage and an amount
    that does not exceed [current_points], a redemption of either shape
    succeeds: the user's [current_points] goes down by exactly the amount,
    one RedemptionRecord with [points_spent = amount] and one
    PointHistoryEntry with [points = -amount] are appended, and the response
    carries the new [current_points]. *)
Theorem redemption_debits_and_records e db op item balance :
  fault e = None ->
  primary_keys_unique db ->
  item_of db (op_item_id op) = Some item ->
  balance_of db (op_user_id op) = Some balance ->
  debit_amount op item <= UserBalance.current_points balance ->
  exists resp db' b' r h,
    run (redeem op) e db = (inr resp, db') /\
    response_balance op resp =
      Some (VInt (UserBalance.current_points balance - debit_amount op item)) /\
    balance_of db' (op_user_id op) = Some b' /\
    UserBalance.current_points b' =
      UserBalance.current_points balance - debit_amount op item /\
    redemption_history db' = redemption_history db ++ [r] /\
    RedemptionHistory.user_id r = op_user_id op /\
    RedemptionHistory.item_id r = op_item_id op /\
    RedemptionHistory.points_spent r = debit_amount op item /\
    point_history db' = point_history db ++ [h] /\
    PointHistory.user_id h = op_user_id op /\
    PointHistory.points h = - debit_amount op item /\
    redeemable_items db' = redeemable_items db.
Proof.
  intros F ND HI HB LE.
  pose proof (redeem_no_fault e db op F) as H.
  rewrite HI, HB in H.
  destruct (Z.ltb_spec (UserBalance.current_points balance) (debit_amount op item))
    as [L|_]; [lia|].
  destruct H as [b [Hb H]].
  rewrite (reload_redeemed e op item balance db _ ND HB) in Hb.
  injection Hb as <-.
  rewrite debited_current_points in H.
  eexists _, _, _, _, _.
  split; [exact H|].
  split; [destruct op; reflexivity|].
  split; [apply balance_of_redeemed; exact HB|].
  split; [apply debited_current_points|].
  split; [apply redeemed_redemption_history|].
  split; [reflexivity|]. split; [reflexivity|]. split; [reflexivity|].
  split; [apply redeemed_point_history|].
  split; [reflexivity|]. split; [reflexivity|].
  apply redeemed_redeemable_items.
Qed.

Lemma redemption_debits_and_records_witness :
  exists resp db' b' r h,
    run (redeem (FlexibleAmount (mkUsePointsRequest 1 1 30))) sample_env sample_db =
      (inr resp, db') /\
    response_balance (FlexibleAmount (mkUsePointsRequest 1 1 30)) resp =
      Some (VInt (100 - 30)) /\
    balance_of db' 1 = Some b' /\
    UserBalance.current_points b' = 100 - 30 /\
    redemption_history db' = [] ++ [r] /\
    RedemptionHistory.user_id r = 1 /\
    RedemptionHistory.item_id r = 1 /\
    RedemptionHistory.points_spent r = 30 /\
    point_history db' = [] ++ [h] /\
    PointHistory.user_id h = 1 /\
    PointHistory.points h = - 30 /\
    redeemable_items db' = [RedeemableItem.mk 1 "Coffee" 30].
Proof.
  apply (redemption_debits_and_records sample_env sample_db
           (FlexibleAmount (mkUsePointsRequest 1 1 30))
           (RedeemableItem.mk 1 "Coffee" 30) (UserBalance.mk 1 1 100 7 5 0)).
  - reflexivity.
  - exact sample_keys_unique.
  - reflexivity.
  - reflexivity.
  - cbn. lia.
Defined.

(** C3.  With the item and the Balance row in storage and an amount above
    [current_points], a redemption of either shape raises the 400
    "Not enough points" and leaves the whole database as it was. *)
Theorem insufficient_points_rejected e db op item balance :
  fault e = None ->
  item_of db (op_item_id op) = Some item ->
  balance_of db (op_user_id op) = Some balance ->
  UserBalance.current_points balance < debit_amount op item ->
  run (redeem op) e db = (inl (HTTPException 400 "Not enough points"), db) /\
  http_status (fst (run (redeem op) e db)) = 400.
Proof.
  intros F HI HB LT.
  pose proof (redeem_no_fault e db op F) as H.
  rewrite HI, HB in H.
  destruct (Z.ltb_spec (UserBalance.current_points balance) (debit_amount op item))
    as [_|L]; [|lia].
  rewrite H. split; reflexivity.
Qed.

Lemma insufficient_points_rejected_witness :
  run (redeem (FlexibleAmount (mkUsePointsRequest 1 1 1000))) sample_env sample_db =
    (inl (HTTPException 400 "Not enough points"), sample_db) /\
  http_status
    (fst (run (redeem (FlexibleAmount (mkUsePointsRequest 1 1 1000)))
            sample_env sample_db)) = 400.
Proof.
  apply (insufficient_points_rejected sample_env sample_db
           (FlexibleAmount (mkUsePointsRequest 1 1 1000))
           (RedeemableItem.mk 1 "Coffee" 30) (UserBalance.mk 1 1 100 7 5 0)).
  - reflexivity.
  - reflexivity.
  - reflexivity.
  - cbn. lia.
Defined.

(** C4.  A redemption of either shape whose item id resolves to no item
    raises the 404 "Item not found", whether or not the user has a Balance
    row; with the item in storage and no Balance row for the user it raises
    the 404 "User not found".  In both cases the database is left as it
    was. *)
Theorem unknown_item_or_user_not_found e db op :
  fault e = None ->
  (item_of db (op_item_id op) = None ->
   run (redeem op) e db = (inl (HTTPException 404 "Item not found"), db)) /\
  (item_of db (op_item_id op) <> None ->
   balance_of db (op_user_id op) = None ->
   run (redeem op) e db = (inl (HTTPException 404 "User not found"), db)) /\
  (item_of db (op_item_id op) = None \/ balance_of db (op_user_id op) = None ->
   http_status (fst (run (redeem op) e db)) = 404 /\
   snd (run (redeem op) e db) = db).
Proof.
  intros F. pose proof (redeem_no_fault e db op F) as H.
  destruct (item_of db (op_item_id op)) as [item|].
  - destruct (balance_of db (op_user_id op)) as [balance|].
    + split; [discriminate|]. split; [discriminate|].
      intros [E|E]; discriminate.
    + split; [discriminate|]. split; [intros _ _; exact H|].
      intros _. rewrite H. split; reflexivity.
  - split; [intros _; exact H|]. split; [intros N; now destruct N|].
    intros _. rewrite H. split; reflexivity.
Qed.

Lemma unknown_item_or_user_not_found_witness :
  run (redeem (FixedPrice 9 9)) sample_env sample_db =
    (inl (HTTPException 404 "Item not found"), sample_db) /\
  run (redeem (FixedPrice 9 1)) sample_env sample_db =
    (inl (HTTPException 404 "User not found"), sample_db).
Proof.
  split.
  - apply (unknown_item_or_user_not_found sample_env sample_db (FixedPrice 9 9)
             eq_refl).
    reflexivity.
  - apply (unknown_item_or_user_not_found sample_env sample_db (FixedPrice 9 1)
             eq_refl).
    + discriminate.
    + reflexivity.
Defined.

(** C2.  The redemption unit is all or nothing.  Whatever the fault plan, a
    redemption of either shape that fails with anything but a failed SELECT
    (so on the UPDATE, on either INSERT or on the COMMIT itself, or on one
    of its own checks) leaves the database as it was; and in every run the
    database afterwards is either the one before, or the one before with
    the debit and both audit rows. *)
Theorem redemption_unit_all_or_nothing e db op r db' :
  run (redeem op) e db = (r, db') ->
  (forall x, r = inl x -> x <> StorageFailure SELECT -> db' = db) /\
  (db' = db \/
   exists item balance b' rec h,
     item_of db (op_item_id op) = Some item /\
     balance_of db (op_user_id op) = Some balance /\
     balance_of db' (op_user_id op) = Some b' /\
     UserBalance.current_points b' =
       UserBalance.current_points balance - debit_amount op item /\
     redemption_history db' = redemption_history db ++ [rec] /\
     RedemptionHistory.points_spent rec = debit_amount op item /\
     point_history db' = point_history db ++ [h] /\
     PointHistory.points h = - debit_amount op item).
Proof.
  intros R.
  assert (applied : forall item balance,
            item_of db (op_item_id op) = Some item ->
            balance_of db (op_user_id op) = Some balance ->
            db' = redeemed e op item balance db ->
            exists item balance b' rec h,
              item_of db (op_item_id op) = Some item /\
              balance_of db (op_user_id op) = Some balance /\
              balance_of db' (op_user_id op) = Some b' /\
              UserBalance.current_points b' =
                UserBalance.current_points balance - debit_amount op item /\
              redemption_history db' = redemption_history db ++ [rec] /\
              RedemptionHistory.points_spent rec = debit_amount op item /\
              point_history db' = point_history db ++ [h] /\
              PointHistory.points h = - debit_amount op item).
  { intros item balance HI HB ->. exists item, balance. eexists _, _, _.
    split; [exact HI|]. split; [exact HB|].
    split; [apply balance_of_redeemed; exact HB|].
    split; [apply debited_current_points|].
    split; [apply redeemed_redemption_history|]. split; [reflexivity|].
    split; [apply redeemed_point_history|]. reflexivity. }
  destruct (redeem_outcome e db op) as [[_ [stmt H]]|H].
  { rewrite H in R. inversion R; subst. split; [reflexivity | now left]. }
  destruct (item_of db (op_item_id op)) as [item|] eqn:HI.
  2:{ rewrite H in R. inversion R; subst. split; [reflexivity | now left]. }
  destruct (balance_of db (op_user_id op)) as [balance|] eqn:HB.
  2:{ rewrite H in R. inversion R; subst. split; [reflexivity | now left]. }
  destruct (_ <? _).
  { rewrite H in R. inversion R; subst. split; [reflexivity | now left]. }
  destruct H as [[_ H]|[b [_ H]]]; rewrite H in R; inversion R; subst.
  - split; [intros x E N; inversion E; subst; now destruct N|].
    right. now apply (applied item balance).
  - split; [intros x E; discriminate|].
    right. now apply (applied item balance).
Qed.

Lemma redemption_unit_all_or_nothing_witness :
  run (redeem (FixedPrice 1 1)) (failing_env 3) sample_db =
    (inl (StorageFailure INSERT), sample_db) /\
  (forall x, inl (A := Exception) (B := dict) (StorageFailure INSERT) = inl x ->
     x <> StorageFailure SELECT -> sample_db = sample_db).
Proof.
  split; [reflexivity|].
  apply (redemption_unit_all_or_nothing (failing_env 3) sample_db (FixedPrice 1 1)
           (inl (StorageFailure INSERT)) sample_db eq_refl).
Defined.

Lemma same_entry_refl l : Forall2 same_entry l l.
Proof. induction l; constructor; [repeat split | assumption]. Qed.

(** C5.  With the item in storage, the fixed-price redemption of
    [(user_id, item_id)] and the flexible one of
    [(user_id, item_id, item.points_required)] signal the same exception or
    answer with the same balance, and leave the same Balance rows, the same
    RedemptionRecords and PointHistoryEntries that agree on everything but
    the date and the remarks. *)
Theorem fixed_price_is_flexible_at_item_price e db user_id item_id item :
  fault e = None ->
  item_of db item_id = Some item ->
  let request :=
    mkUsePointsRequest user_id item_id (RedeemableItem.points_required item) in
  let legacy := run (redeem_points_legacy user_id item_id) e db in
  let flexible := run (use_points request) e db in
  same_result (fst legacy) (fst flexible) /\
  user_balance (snd legacy) = user_balance (snd flexible) /\
  redemption_history (snd legacy) = redemption_history (snd flexible) /\
  redeemable_items (snd legacy) = redeemable_items (snd flexible) /\
  Forall2 same_entry (point_history (snd legacy)) (point_history (snd flexible)).
Proof.
  intros F HI request legacy flexible.
  pose proof (redeem_no_fault e db (FixedPrice user_id item_id) F) as H1.
  pose proof (redeem_no_fault e db (FlexibleAmount request) F) as H2.
  cbn [redeem op_item_id op_user_id debit_amount req_item_id req_user_id
       req_points request] in H1, H2.
  rewrite HI in H1, H2.
  fold request in H2. fold legacy in H1. fold flexible in H2.
  destruct (balance_of db user_id) as [balance|] eqn:HB.
  2:{ rewrite H1, H2. cbn. repeat split. apply same_entry_refl. }
  destruct (_ <? _).
  { rewrite H1, H2. cbn. repeat split. apply same_entry_refl. }
  destruct H1 as [b1 [Hb1 H1]]. destruct H2 as [b2 [Hb2 H2]].
  rewrite redeemed_user_balance in Hb1, Hb2.
  cbn [debit_amount req_points request] in Hb1, Hb2.
  rewrite Hb1 in Hb2. injection Hb2 as <-.
  rewrite H1, H2. cbn [fst snd].
  split; [exists (VInt (UserBalance.current_points b1)); split; reflexivity|].
  split; [now rewrite !redeemed_user_balance|].
  split; [now rewrite !redeemed_redemption_history|].
  split; [now rewrite !redeemed_redeemable_items|].
  rewrite !redeemed_point_history.
  apply Forall2_app; [apply same_entry_refl|].
  constructor; [repeat split | constructor].
Qed.

Lemma fixed_price_is_flexible_at_item_price_witness :
  same_result
    (fst (run (redeem_points_legacy 1 1) sample_env sample_db))
    (fst (run (use_points (mkUsePointsRequest 1 1 30)) sample_env sample_db)) /\
  Forall2 same_entry
    (point_history (snd (run (redeem_points_legacy 1 1) sample_env sample_db)))
    (point_history
       (snd (run (use_points (mkUsePointsRequest 1 1 30)) sample_env sample_db))).
Proof.
  pose proof (fixed_price_is_flexible_at_item_price sample_env sample_db 1 1
                (RedeemableItem.mk 1 "Coffee" 30) eq_refl eq_refl) as H.
  split; [exact (proj1 H) | exact (proj2 (proj2 (proj2 (proj2 H))))].
Defined.

(** The flexible path takes [points = 0] and records it. *)
Lemma zero_points_record_not_positive : ~ every_record_spends_positive.
Proof.
  intros H.
  assert (R : run (redeem (FlexibleAmount (mkUsePointsRequest 1 1 0)))
                sample_env sample_db =
              (inr (success_response (FlexibleAmount (mkUsePointsRequest 1 1 0)) 100),
               mkDatabase
                 [UserBalance.mk 1 1 100 7 5 0]
                 [PointHistory.mk 1 1 1000 "Coffeeと交換" 0
                    (Some "アイテム交換: Coffee"%string)]
                 [RedeemableItem.mk 1 "Coffee" 30]
                 [RedemptionHistory.mk 1 1 1 900 0]))
    by (vm_compute; reflexivity).
  assert (P : 0 < RedemptionHistory.points_spent (RedemptionHistory.mk 1 1 1 900 0)).
  { apply (H _ _ _ _ _ _ R); [now left | intros []]. }
  cbn in P. lia.
Qed.

(** C6, amended.  Every RedemptionRecord a redemption of either shape
    produces has [points_spent] equal to the amount debited from the user's
    [current_points]: the price of the item on the fixed-price path, the
    points of the request on the flexible path.  It is positive exactly when
    that amount is. *)
Theorem record_spends_debited_amount e db op resp db' :
  run (redeem op) e db = (inr resp, db') ->
  exists item balance b' rec,
    item_of db (op_item_id op) = Some item /\
    balance_of db (op_user_id op) = Some balance /\
    balance_of db' (op_user_id op) = Some b' /\
    redemption_history db' = redemption_history db ++ [rec] /\
    RedemptionHistory.points_spent rec = debit_amount op item /\
    RedemptionHistory.points_spent rec =
      UserBalance.current_points balance - UserBalance.current_points b' /\
    (0 < RedemptionHistory.points_spent rec <-> 0 < debit_amount op item).
Proof.
  intros R.
  destruct (redeem_success_inv e db op resp db' R)
    as [item [balance [b [HI [HB [_ [-> _]]]]]]].
  exists item, balance. eexists _, _.
  split; [exact HI|]. split; [exact HB|].
  split; [apply balance_of_redeemed; exact HB|].
  split; [apply redeemed_redemption_history|].
  split; [reflexivity|].
  split; [rewrite debited_current_points; cbn; lia|].
  reflexivity.
Qed.

Lemma record_spends_debited_amount_witness :
  exists item balance b' rec,
    item_of sample_db 1 = Some item /\
    balance_of sample_db 1 = Some balance /\
    balance_of (snd (run (redeem (FixedPrice 1 1)) sample_env sample_db)) 1 = Some b' /\
    redemption_history (snd (run (redeem (FixedPrice 1 1)) sample_env sample_db)) =
      [] ++ [rec] /\
    RedemptionHistory.points_spent rec = RedeemableItem.points_required item /\
    RedemptionHistory.points_spent rec =
      UserBalance.current_points balance - UserBalance.current_points b' /\
    (0 < RedemptionHistory.points_spent rec <->
     0 < RedeemableItem.points_required item).
Proof.
  apply (record_spends_debited_amount sample_env sample_db (FixedPrice 1 1)
           (success_response (FixedPrice 1 1) 70)).
  reflexivity.
Defined.

(** C10.  A flexible-amount request with [points <= 0], against an item and
    a Balance row in storage whose [current_points] is not below [points],
    succeeds: [current_points] goes up by [|points|], the RedemptionRecord
    has [points_spent = points] and the PointHistoryEntry has
    [points = |points|]; for [points < 0] the balance really grows, the
    record is negative and the history entry positive. *)
Theorem non_positive_amount_accepted e db request item balance :
  fault e = None ->
  primary_keys_unique db ->
  item_of db (req_item_id request) = Some item ->
  balance_of db (req_user_id request) = Some balance ->
  req_points request <= 0 ->
  req_points request <= UserBalance.current_points balance ->
  exists resp db' b' rec h,
    run (use_points request) e db = (inr resp, db') /\
    dict_get "success" resp = Some (VBool true) /\
    dict_get "remaining_points" resp =
      Some (VInt (UserBalance.current_points balance + Z.abs (req_points request))) /\
    balance_of db' (req_user_id request) = Some b' /\
    UserBalance.current_points b' =
      UserBalance.current_points balance + Z.abs (req_points request) /\
    redemption_history db' = redemption_history db ++ [rec] /\
    RedemptionHistory.points_spent rec = req_points request /\
    point_history db' = point_history db ++ [h] /\
    PointHistory.points h = Z.abs (req_points request) /\
    (req_points request < 0 ->
     UserBalance.current_points balance < UserBalance.current_points b' /\
     RedemptionHistory.points_spent rec < 0 /\
     0 < PointHistory.points h).
Proof.
  intros F ND HI HB NP LE.
  pose proof (redeem_no_fault e db (FlexibleAmount request) F) as H.
  cbn [redeem op_item_id op_user_id debit_amount] in H.
  rewrite HI, HB in H.
  destruct (Z.ltb_spec (UserBalance.current_points balance) (req_points request))
    as [L|_]; [lia|].
  destruct H as [b [Hb H]].
  rewrite (reload_redeemed e (FlexibleAmount request) item balance db _ ND HB) in Hb.
  injection Hb as <-.
  rewrite debited_current_points in H. cbn [debit_amount] in H.
  replace (UserBalance.current_points balance - req_points request)
    with (UserBalance.current_points balance + Z.abs (req_points request)) in H by lia.
  eexists _, _, _, _, _.
  split; [exact H|].
  split; [reflexivity|]. split; [reflexivity|].
  split; [apply (balance_of_redeemed e (FlexibleAmount request)); exact HB|].
  split; [rewrite debited_current_points; cbn [debit_amount]; lia|].
  split; [apply redeemed_redemption_history|]. split; [reflexivity|].
  split; [apply redeemed_point_history|].
  split; [cbn; lia|].
  intros NEG. rewrite debited_current_points. cbn. lia.
Qed.

Lemma non_positive_amount_accepted_witness :
  exists resp db' b' rec h,
    run (use_points (mkUsePointsRequest 1 1 (-5))) sample_env sample_db =
      (inr resp, db') /\
    dict_get "success" resp = Some (VBool true) /\
    dict_get "remaining_points" resp = Some (VInt (100 + Z.abs (-5))) /\
    balance_of db' 1 = Some b' /\
    UserBalance.current_points b' = 100 + Z.abs (-5) /\
    redemption_history db' = [] ++ [rec] /\
    RedemptionHistory.points_spent rec = -5 /\
    point_history db' = [] ++ [h] /\
    PointHistory.points h = Z.abs (-5) /\
    (-5 < 0 ->
     100 < UserBalance.current_points b' /\
     RedemptionHistory.points_spent rec < 0 /\
     0 < PointHistory.points h).
Proof.
  apply (non_positive_amount_accepted sample_env sample_db
           (mkUsePointsRequest 1 1 (-5))
           (RedeemableItem.mk 1 "Coffee" 30) (UserBalance.mk 1 1 100 7 5 0)).
  - reflexivity.
  - exact sample_keys_unique.
  - reflexivity.
  - reflexivity.
  - cbn. lia.
  - cbn. lia.
Defined.

(** ** Read accessors *)

Lemma get_user_balance_no_fault e db user_id :
  fault e = None ->
  run (get_user_balance user_id) e db =
  (match balance_of db user_id with
   | Some balance =>
       inr [("user_id"%string, VInt user_id);
            ("current_points"%string, VInt (UserBalance.current_points balance));
            ("expiring_points"%string, VInt (UserBalance.expiring_points balance))]
   | None => inl (HTTPException 404 "User not found")
   end, db).
Proof.
  intros F. unfold run, get_user_balance, bind, balance_of.
  rewrite (first_ok _ _ _ _ F). cbn [tx bump SessionLocal].
  destruct (find _ (user_balance db)); reflexivity.
Qed.

Lemma balance_of_set_scheduled v db user_id :
  balance_of (set_scheduled v db) user_id =
  option_map (fun b => UserBalance.mk (UserBalance.id b) (UserBalance.user_id b)
                         (UserBalance.current_points b) v
                         (UserBalance.expiring_points b) (UserBalance.updated_at b))
    (balance_of db user_id).
Proof.
  unfold balance_of, set_scheduled. cbn [user_balance].
  apply find_map_stable. reflexivity.
Qed.

(** C7.  For a user with a Balance row, [get_user_balance] answers with
    exactly the fields [user_id], [current_points] and [expiring_points],
    holding the stored values; [scheduled_points] is no key of the answer
    and the answer does not depend on what is stored there.  Without a
    Balance row it raises the 404 "User not found". *)
Theorem balance_hides_scheduled_points e db user_id :
  fault e = None ->
  match balance_of db user_id with
  | Some balance =>
      UserBalance.user_id balance = user_id /\
      run (get_user_balance user_id) e db =
      (inr [("user_id"%string, VInt (UserBalance.user_id balance));
            ("current_points"%string, VInt (UserBalance.current_points balance));
            ("expiring_points"%string, VInt (UserBalance.expiring_points balance))],
       db) /\
      (forall resp,
         fst (run (get_user_balance user_id) e db) = inr resp ->
         map fst resp = BalanceResponse /\
         dict_get "scheduled_points" resp = None) /\
      (forall v,
         fst (run (get_user_balance user_id) e (set_scheduled v db)) =
         fst (run (get_user_balance user_id) e db))
  | None =>
      run (get_user_balance user_id) e db =
      (inl (HTTPException 404 "User not found"), db) /\
      http_status (fst (run (get_user_balance user_id) e db)) = 404
  end.
Proof.
  intros F. pose proof (get_user_balance_no_fault e db user_id F) as H.
  destruct (balance_of db user_id) as [balance|] eqn:HB.
  - assert (U : UserBalance.user_id balance = user_id).
    { unfold balance_of in HB. apply find_some in HB. destruct HB as [_ HB]. lia. }
    split; [exact U|]. split; [now rewrite U|].
    split.
    + intros resp R. rewrite H in R. injection R as <-. split; reflexivity.
    + intros v. rewrite (get_user_balance_no_fault e (set_scheduled v db) user_id F).
      rewrite balance_of_set_scheduled, HB, H. reflexivity.
  - rewrite H. split; reflexivity.
Qed.

Lemma balance_hides_scheduled_points_witness :
  run (get_user_balance 1) sample_env sample_db =
    (inr [("user_id"%string, VInt 1);
          ("current_points"%string, VInt 100);
          ("expiring_points"%string, VInt 5)],
     sample_db) /\
  run (get_user_balance 2) sample_env sample_db =
    (inl (HTTPException 404 "User not found"), sample_db).
Proof.
  split.
  - exact (proj1 (proj2 (balance_hides_scheduled_points sample_env sample_db 1 eq_refl))).
  - exact (proj1 (balance_hides_scheduled_points sample_env sample_db 2 eq_refl)).
Defined.

Lemma insert_desc_perm h l : Permutation (insert_desc h l) (h :: l).
Proof.
  induction l as [|x l IH]; [reflexivity|].
  cbn [insert_desc]. destruct (_ <? _); [|reflexivity].
  rewrite IH. apply perm_swap.
Qed.

Lemma sort_desc_perm l : Permutation (sort_desc l) l.
Proof.
  induction l as [|x l IH]; [reflexivity|].
  cbn [sort_desc fold_right]. fold (sort_desc l).
  rewrite insert_desc_perm. now constructor.
Qed.

Lemma insert_desc_sorted h l :
  StronglySorted newer_first l -> StronglySorted newer_first (insert_desc h l).
Proof.
  induction 1 as [|x l S IH A]; cbn [insert_desc].
  - constructor; constructor.
  - destruct (Z.ltb_spec (PointHistory.date h) (PointHistory.date x)) as [L|L].
    + constructor; [exact IH|].
      rewrite insert_desc_perm. constructor; [unfold newer_first; lia | exact A].
    + constructor; [now constructor|].
      constructor; [exact L|].
      eapply Forall_impl; [|exact A]. unfold newer_first. intros a Ha. lia.
Qed.

Lemma sort_desc_sorted l : StronglySorted newer_first (sort_desc l).
Proof.
  induction l as [|x l IH]; [constructor|].
  cbn [sort_desc fold_right]. fold (sort_desc l). now apply insert_desc_sorted.
Qed.

Lemma firstn_incl {A} n (l : list A) x : In x (firstn n l) -> In x l.
Proof.
  intros H. rewrite <- (firstn_skipn n l). apply in_or_app. now left.
Qed.

Lemma skipn_incl {A} n (l : list A) x : In x (skipn n l) -> In x l.
Proof.
  intros H. rewrite <- (firstn_skipn n l). apply in_or_app. now right.
Qed.

Lemma firstn_sorted {A} (R : A -> A -> Prop) n : forall l,
  StronglySorted R l -> StronglySorted R (firstn n l).
Proof.
  induction n as [|n IH]; intros l S; [constructor|].
  destruct S as [|x l S F]; [constructor|].
  cbn [firstn]. constructor; [now apply IH|].
  rewrite Forall_forall in *. intros y Hy. apply F. now apply firstn_incl in Hy.
Qed.

Lemma sorted_kept_before_dropped {A} (R : A -> A -> Prop) n : forall l a b,
  StronglySorted R l -> In a (firstn n l) -> In b (skipn n l) -> R a b.
Proof.
  induction n as [|n IH]; intros l a b S Ha Hb; [destruct Ha|].
  destruct S as [|x l S F]; [destruct Ha|].
  cbn [firstn skipn] in Ha, Hb. destruct Ha as [->|Ha].
  - rewrite Forall_forall in F. apply F. now apply skipn_incl in Hb.
  - now apply (IH l).
Qed.

Lemma is_str_true x s : is_str x s = true <-> x = Some s.
Proof.
  destruct x as [y|]; cbn; [|split; discriminate].
  rewrite String.eqb_eq. split; congruence.
Qed.

Lemma wanted_selected user_id filter_type h :
  wanted user_id filter_type h = true <-> selected user_id filter_type h.
Proof.
  unfold wanted, selected. rewrite andb_true_iff, Z.eqb_eq.
  destruct (is_str filter_type "earned") eqn:E1.
  - apply is_str_true in E1. subst. rewrite Z.ltb_lt.
    split.
    + intros [U P]. split; [exact U|]. split; [intros _; exact P | discriminate].
    + intros [U [P _]]. split; [exact U | now apply P].
  - destruct (is_str filter_type "used") eqn:E2.
    + apply is_str_true in E2. subst. rewrite Z.ltb_lt.
      split.
      * intros [U P]. split; [exact U|]. split; [discriminate | intros _; exact P].
      * intros [U [_ P]]. split; [exact U | now apply P].
    + split.
      * intros [U _]. split; [exact U|].
        split; intros K; apply is_str_true in K; congruence.
      * intros [U _]. now split.
Qed.

Lemma get_point_history_no_fault e db user_id limit filter_type :
  fault e = None ->
  run (get_point_history user_id limit filter_type) e db =
  (match limit with
   | None => inr (listing db user_id filter_type)
   | Some n =>
       if n =? 0 then inr (listing db user_id filter_type)
       else if n <? 0 then inl (StorageFailure SELECT)
       else inr (firstn (Z.to_nat n) (listing db user_id filter_type))
   end, db).
Proof.
  intros F. unfold run, get_point_history, query_all, bind.
  rewrite (execute_ok _ _ _ F). cbn [tx bump SessionLocal committed].
  assert (W : forall q,
            q_where (query_order_by_desc_date
              (if is_str filter_type "earned"
               then query_filter
                      (mkQuery (fun h => PointHistory.user_id h =? user_id) false None)
                      (fun h => PointHistory.points h >? 0)
               else if is_str filter_type "used"
               then query_filter
                      (mkQuery (fun h => PointHistory.user_id h =? user_id) false None)
                      (fun h => PointHistory.points h <? 0)
               else mkQuery (fun h => PointHistory.user_id h =? user_id) false None)) q
            = wanted user_id filter_type q).
  { intros q. unfold wanted.
    destruct (is_str filter_type "earned"); [cbn; now rewrite Z.gtb_ltb|].
    destruct (is_str filter_type "used"); [reflexivity|].
    cbn. now rewrite andb_true_r. }
  unfold listing.
  destruct limit as [n|]; cbn [truthy].
  - destruct (n =? 0); cbn [negb].
    + cbn [q_limit query_order_by_desc_date].
      replace (q_limit (if is_str filter_type "earned" then _ else _)) with (@None Z)
        by (destruct (is_str filter_type "earned");
            [|destruct (is_str filter_type "used")]; reflexivity).
      cbn [q_order_desc_date query_order_by_desc_date].
      now rewrite (filter_ext _ _ W).
    + cbn [q_limit query_limit q_order_desc_date q_where query_order_by_desc_date].
      rewrite (filter_ext _ _ W). destruct (n <? 0); reflexivity.
  - cbn [q_limit query_order_by_desc_date].
    replace (q_limit (if is_str filter_type "earned" then _ else _)) with (@None Z)
      by (destruct (is_str filter_type "earned");
          [|destruct (is_str filter_type "used")]; reflexivity).
    cbn [q_order_desc_date query_order_by_desc_date].
    now rewrite (filter_ext _ _ W).
Qed.

Lemma listing_sorted db user_id filter_type :
  StronglySorted newer_first (listing db user_id filter_type).
Proof. apply sort_desc_sorted. Qed.

Lemma listing_perm db user_id filter_type :
  Permutation (listing db user_id filter_type)
    (filter (wanted user_id filter_type) (point_history db)).
Proof. apply sort_desc_perm. Qed.

Lemma listing_sound db user_id filter_type h :
  In h (listing db user_id filter_type) ->
  In h (point_history db) /\ selected user_id filter_type h.
Proof.
  intros Hh. apply (Permutation_in _ (listing_perm db user_id filter_type)) in Hh.
  apply filter_In in Hh. destruct Hh as [Hi Hw].
  split; [exact Hi | now apply wanted_selected].
Qed.

Lemma listing_complete db user_id filter_type h :
  In h (point_history db) -> selected user_id filter_type h ->
  In h (listing db user_id filter_type).
Proof.
  intros Hi Hs.
  apply (Permutation_in _ (Permutation_sym (listing_perm db user_id filter_type))).
  apply filter_In. split; [exact Hi | now apply wanted_selected].
Qed.

(** C8.  [get_point_history] returns rows of the asked user only, newest
    first; with filter type "earned" only rows with [points > 0], with
    "used" only rows with [points < 0], with any other or no filter type
    every row of the user.  The rows returned and the rows a LIMIT cut off
    are together exactly the stored rows that qualify; nothing is cut off
    when the limit is [None] or [0] or not below the number of qualifying
    rows, and then the rows returned are exactly the qualifying ones. *)
Theorem point_history_filtered_newest_first e db user_id limit filter_type :
  fault e = None ->
  (forall n, limit = Some n -> 0 <= n) ->
  exists rows rest,
    run (get_point_history user_id limit filter_type) e db = (inr rows, db) /\
    StronglySorted newer_first rows /\
    (forall h, wanted user_id filter_type h = true <-> selected user_id filter_type h) /\
    (forall h, In h rows -> In h (point_history db) /\ selected user_id filter_type h) /\
    Permutation (rows ++ rest) (filter (wanted user_id filter_type) (point_history db)) /\
    ((forall n, limit = Some n ->
        n = 0 \/
        (List.length (filter (wanted user_id filter_type) (point_history db))
         <= Z.to_nat n)%nat) ->
     rest = [] /\
     forall h, In h (point_history db) -> selected user_id filter_type h -> In h rows).
Proof.
  intros F NN.
  rewrite (get_point_history_no_fault e db user_id limit filter_type F).
  pose proof (listing_sorted db user_id filter_type) as S.
  pose proof (listing_sound db user_id filter_type) as sound.
  pose proof (listing_complete db user_id filter_type) as complete.
  pose proof (listing_perm db user_id filter_type) as P.
  assert (cut : forall n, 0 <= n -> n <> 0 ->
            (if n <? 0 then inl (StorageFailure SELECT)
             else inr (firstn (Z.to_nat n) (listing db user_id filter_type)))
            = (inr (firstn (Z.to_nat n) (listing db user_id filter_type))
               : Exception + list PointHistory.t)).
  { intros n H0 _. destruct (Z.ltb_spec n 0); [lia | reflexivity]. }
  destruct limit as [n|];
    [destruct (Z.eqb_spec n 0) as [E|E]|].
  2:{ rewrite (cut n (NN n eq_refl) E).
      exists (firstn (Z.to_nat n) (listing db user_id filter_type)),
             (skipn (Z.to_nat n) (listing db user_id filter_type)).
      split; [reflexivity|]. split; [now apply firstn_sorted|].
      split; [apply wanted_selected|].
      split; [intros h Hh; apply sound; now apply firstn_incl in Hh|].
      split; [now rewrite firstn_skipn|].
      intros Hn. destruct (Hn n eq_refl) as [Z0|LE]; [contradiction|].
      rewrite <- (Permutation_length P) in LE.
      rewrite skipn_all2 by exact LE. rewrite firstn_all2 by exact LE.
      split; [reflexivity | exact complete]. }
  all: exists (listing db user_id filter_type), [];
    (split; [reflexivity|]); (split; [exact S|]);
    (split; [apply wanted_selected|]); (split; [exact sound|]);
    (split; [now rewrite app_nil_r|]); intros _; split; [reflexivity | exact complete].
Qed.

Lemma point_history_filtered_newest_first_witness :
  exists rows rest,
    run (get_point_history 1 (Some 5) (Some "earned"%string)) sample_env history_db =
      (inr rows, history_db) /\
    StronglySorted newer_first rows /\
    (forall h, wanted 1 (Some "earned"%string) h = true <->
               selected 1 (Some "earned"%string) h) /\
    (forall h, In h rows ->
               In h (point_history history_db) /\ selected 1 (Some "earned"%string) h) /\
    Permutation (rows ++ rest)
      (filter (wanted 1 (Some "earned"%string)) (point_history history_db)) /\
    ((forall n, Some 5 = Some n ->
        n = 0 \/
        (List.length (filter (wanted 1 (Some "earned"%string))
                        (point_history history_db)) <= Z.to_nat n)%nat) ->
     rest = [] /\
     forall h, In h (point_history history_db) ->
               selected 1 (Some "earned"%string) h -> In h rows).
Proof.
  apply (point_history_filtered_newest_first sample_env history_db 1 (Some 5)
           (Some "earned"%string)).
  - reflexivity.
  - intros n H. injection H as <-. lia.
Defined.

(** The filtering scenario of the specification, run. *)
Example history_earned :
  run (get_point_history_endpoint 1 None (Some (Some "earned"%string)))
    sample_env history_db =
  (inr [PointHistory.mk 3 1 30 "bonus" 20 None;
        PointHistory.mk 1 1 10 "bonus" 10 None], history_db).
Proof. reflexivity. Qed.

Example history_used :
  run (get_point_history_endpoint 1 None (Some (Some "used"%string)))
    sample_env history_db =
  (inr [PointHistory.mk 4 1 40 "tea" (-3) None;
        PointHistory.mk 2 1 20 "coffee" (-5) None], history_db).
Proof. reflexivity. Qed.

(** C9.  [get_point_history] cuts its newest-first listing down to the first
    [limit] rows: a request without [limit] gets 5, a positive [limit] keeps
    [min limit (number of rows)] rows, none of them older than a row it
    drops, and with [limit] [None] or [0] the whole listing is returned. *)
Theorem point_history_limit e db user_id filter_type :
  fault e = None ->
  let full := listing db user_id filter_type in
  StronglySorted newer_first full /\
  get_point_history_endpoint user_id None (Some filter_type) =
    get_point_history user_id (Some 5) filter_type /\
  run (get_point_history user_id None filter_type) e db = (inr full, db) /\
  run (get_point_history user_id (Some 0) filter_type) e db = (inr full, db) /\
  (forall n, 0 < n ->
     run (get_point_history user_id (Some n) filter_type) e db =
       (inr (firstn (Z.to_nat n) full), db) /\
     List.length (firstn (Z.to_nat n) full) = Nat.min (Z.to_nat n) (List.length full) /\
     forall kept dropped,
       In kept (firstn (Z.to_nat n) full) ->
       In dropped (skipn (Z.to_nat n) full) ->
       PointHistory.date dropped <= PointHistory.date kept).
Proof.
  intros F full.
  assert (S : StronglySorted newer_first full) by apply listing_sorted.
  split; [exact S|]. split; [reflexivity|].
  split; [apply (get_point_history_no_fault e db user_id None filter_type F)|].
  split; [apply (get_point_history_no_fault e db user_id (Some 0) filter_type F)|].
  intros n Hn.
  split.
  - rewrite (get_point_history_no_fault e db user_id (Some n) filter_type F).
    destruct (Z.eqb_spec n 0) as [E|_]; [lia|].
    destruct (Z.ltb_spec n 0) as [L|_]; [lia|]. reflexivity.
  - split; [apply length_firstn|].
    intros kept dropped Hk Hd.
    exact (sorted_kept_before_dropped newer_first _ _ _ _ S Hk Hd).
Qed.

Lemma point_history_limit_witness :
  run (get_point_history 1 (Some 5) None) sample_env ten_entries_db =
    (inr (firstn 5 (listing ten_entries_db 1 None)), ten_entries_db) /\
  List.length (firstn 5 (listing ten_entries_db 1 None)) = 5%nat.
Proof.
  pose proof (point_history_limit sample_env ten_entries_db 1 None eq_refl) as H.
  destruct H as [_ [_ [_ [_ H]]]].
  destruct (H 5 eq_refl) as [R [L _]].
  split; [exact R | exact L].
Defined.

(** The limiting scenario of the specification, run: of ten entries a
    request without [limit] gets the five newest. *)
Example history_default_limit :
  run (get_point_history_endpoint 1 None None) sample_env ten_entries_db =
  (inr (map (fun d => PointHistory.mk d 1 d "entry" d None) [10; 9; 8; 7; 6]),
   ten_entries_db).
Proof. reflexivity. Qed.

(** The redemption scenarios of the specification, run one after the
    other. *)
Example scenario_redeem_30 :
  let after := snd (run (use_points (mkUsePointsRequest 1 1 30)) sample_env sample_db) in
  fst (run (use_points (mkUsePointsRequest 1 1 30)) sample_env sample_db) =
    inr [("success"%string, VBool true);
         ("message"%string, VStr "ポイント交換が完了しました");
         ("remaining_points"%string, VInt 70)] /\
  map RedemptionHistory.points_spent (redemption_history after) = [30] /\
  map PointHistory.points (point_history after) = [-30] /\
  run (use_points (mkUsePointsRequest 1 1 1000)) sample_env after =
    (inl (HTTPException 400 "Not enough points"), after).
Proof. vm_compute. repeat split. Qed.

(** ** What a redemption keeps *)

Lemma redeem_final_db e db op r db' :
  run (redeem op) e db = (r, db') ->
  db' = db \/
  exists item balance,
    item_of db (op_item_id op) = Some item /\
    balance_of db (op_user_id op) = Some balance /\
    debit_amount op item <= UserBalance.current_points balance /\
    db' = redeemed e op item balance db.
Proof.
  intros R. destruct (redeem_outcome e db op) as [[_ [stmt H]]|H].
  { rewrite H in R. inversion R. now left. }
  destruct (item_of db (op_item_id op)) as [item|] eqn:HI.
  2:{ rewrite H in R. inversion R. now left. }
  destruct (balance_of db (op_user_id op)) as [balance|] eqn:HB.
  2:{ rewrite H in R. inversion R. now left. }
  destruct (Z.ltb_spec (UserBalance.current_points balance) (debit_amount op item))
    as [L|L].
  { rewrite H in R. inversion R. now left. }
  right. exists item, balance.
  destruct H as [[_ H]|[b [_ H]]]; rewrite H in R; inversion R; subst; auto.
Qed.

Lemma redeem_success e db op item balance :
  fault e = None ->
  primary_keys_unique db ->
  item_of db (op_item_id op) = Some item ->
  balance_of db (op_user_id op) = Some balance ->
  debit_amount op item <= UserBalance.current_points balance ->
  run (redeem op) e db =
  (inr (success_response op (UserBalance.current_points balance - debit_amount op item)),
   redeemed e op item balance db).
Proof.
  intros F ND HI HB LE.
  pose proof (redeem_no_fault e db op F) as H. rewrite HI, HB in H.
  destruct (Z.ltb_spec (UserBalance.current_points balance) (debit_amount op item))
    as [L|_]; [lia|].
  destruct H as [b [Hb H]].
  rewrite (reload_redeemed e op item balance db _ ND HB) in Hb.
  injection Hb as <-. now rewrite debited_current_points in H.
Qed.

Lemma primary_key_decides l x y :
  NoDup (map UserBalance.id l) -> In x l -> In y l ->
  UserBalance.id x = UserBalance.id y -> x = y.
Proof.
  intros ND Hx Hy E.
  pose proof (find_by_primary_key l x ND Hx) as Fx.
  pose proof (find_by_primary_key l y ND Hy) as Fy.
  rewrite E in Fx. rewrite Fx in Fy. now injection Fy.
Qed.

Lemma update_balance_other pk v t row :
  UserBalance.id row <> pk -> update_balance pk v t row = row.
Proof.
  intros N. unfold update_balance.
  destruct (Z.eqb_spec (UserBalance.id row) pk); [contradiction | reflexivity].
Qed.

Lemma balance_of_redeemed_other e op item balance db u :
  primary_keys_unique db ->
  balance_of db (op_user_id op) = Some balance ->
  u <> op_user_id op ->
  balance_of (redeemed e op item balance db) u = balance_of db u.
Proof.
  unfold balance_of, primary_keys_unique. intros ND HB NE.
  rewrite redeemed_user_balance.
  destruct (debit_amount op item =? 0); [reflexivity|].
  rewrite find_map_stable by (intros x; now rewrite update_balance_user_id).
  destruct (find (fun b => UserBalance.user_id b =? u) (user_balance db))
    as [x|] eqn:HX; [|reflexivity].
  cbn [option_map]. f_equal. apply update_balance_other. intros E.
  apply find_some in HX. apply find_some in HB.
  destruct HX as [Ix Ux]. destruct HB as [Ib Ub].
  rewrite (primary_key_decides _ x balance ND Ix Ib E) in Ux. lia.
Qed.

Lemma points_total_app u l1 l2 :
  points_total u (l1 ++ l2) = points_total u l1 + points_total u l2.
Proof.
  unfold points_total. rewrite filter_app, map_app.
  induction (map PointHistory.points
               (filter (fun h => PointHistory.user_id h =? u) l1)) as [|z l IH];
    cbn [app fold_right]; lia.
Qed.

(** X1.  Whatever the sign of the amount and of the balance before, a
    redemption that succeeds leaves the user a balance that is not
    negative. *)
Theorem redemption_leaves_balance_non_negative e db op resp db' :
  run (redeem op) e db = (inr resp, db') ->
  exists b',
    balance_of db' (op_user_id op) = Some b' /\
    0 <= UserBalance.current_points b'.
Proof.
  intros R.
  destruct (redeem_success_inv e db op resp db' R)
    as [item [balance [b [HI [HB [LE [-> _]]]]]]].
  eexists. split; [apply balance_of_redeemed; exact HB|].
  rewrite debited_current_points. lia.
Qed.

Lemma redemption_leaves_balance_non_negative_witness :
  exists b',
    balance_of (snd (run (redeem (FlexibleAmount (mkUsePointsRequest 1 1 100)))
                       sample_env sample_db)) 1 = Some b' /\
    0 <= UserBalance.current_points b'.
Proof.
  apply (redemption_leaves_balance_non_negative sample_env sample_db
           (FlexibleAmount (mkUsePointsRequest 1 1 100))
           (success_response (FlexibleAmount (mkUsePointsRequest 1 1 100)) 0)).
  vm_compute. reflexivity.
Defined.

(** X2.  Whatever its outcome and the fault plan, a redemption leaves the
    catalog alone, keeps every Balance row's [id], [user_id],
    [scheduled_points] and [expiring_points], and only appends to the two
    audit tables.  With distinct primary keys every Balance row but the one
    the user's lookup resolves to is left exactly as it was. *)
Theorem redemption_touches_one_balance_row e db op r db' :
  run (redeem op) e db = (r, db') ->
  redeemable_items db' = redeemable_items db /\
  map UserBalance.id (user_balance db') = map UserBalance.id (user_balance db) /\
  map UserBalance.user_id (user_balance db') =
    map UserBalance.user_id (user_balance db) /\
  map UserBalance.scheduled_points (user_balance db') =
    map UserBalance.scheduled_points (user_balance db) /\
  map UserBalance.expiring_points (user_balance db') =
    map UserBalance.expiring_points (user_balance db) /\
  (exists l, redemption_history db' = redemption_history db ++ l) /\
  (exists l, point_history db' = point_history db ++ l) /\
  (primary_keys_unique db ->
   forall row, In row (user_balance db) ->
               balance_of db (op_user_id op) <> Some row ->
               In row (user_balance db')).
Proof.
  intros R.
  destruct (redeem_final_db e db op r db' R) as [->|[item [balance [HI [HB [LE ->]]]]]].
  { repeat (split; [reflexivity|]).
    split; [exists []; now rewrite app_nil_r|].
    split; [exists []; now rewrite app_nil_r|]. auto. }
  assert (field : forall (f : UserBalance.t -> Z),
            (forall pk v t b, f (update_balance pk v t b) = f b) ->
            map f (user_balance (redeemed e op item balance db)) =
            map f (user_balance db)).
  { intros f Hf. rewrite redeemed_user_balance.
    destruct (debit_amount op item =? 0); [reflexivity|].
    rewrite map_map. apply map_ext. intros b. apply Hf. }
  split; [apply redeemed_redeemable_items|].
  split; [apply field, update_balance_id|].
  split; [apply field, update_balance_user_id|].
  split; [apply field; intros pk v t b; unfold update_balance;
          destruct (_ =? _); reflexivity|].
  split; [apply field; intros pk v t b; unfold update_balance;
          destruct (_ =? _); reflexivity|].
  split; [eexists; apply redeemed_redemption_history|].
  split; [eexists; apply redeemed_point_history|].
  intros ND row Hrow Hne. rewrite redeemed_user_balance.
  destruct (debit_amount op item =? 0); [exact Hrow|].
  rewrite <- (update_balance_other (UserBalance.id balance)
                (UserBalance.current_points balance - debit_amount op item)
                (utcnow e) row).
  - now apply in_map.
  - intros E. apply Hne. rewrite HB. f_equal. symmetry.
    unfold balance_of in HB. apply find_some in HB. destruct HB as [Ib _].
    exact (primary_key_decides _ row balance ND Hrow Ib E).
Qed.

Lemma redemption_touches_one_balance_row_witness :
  redeemable_items (snd (run (redeem (FixedPrice 1 1)) sample_env sample_db)) =
    redeemable_items sample_db /\
  map UserBalance.scheduled_points
    (user_balance (snd (run (redeem (FixedPrice 1 1)) sample_env sample_db))) =
    map UserBalance.scheduled_points (user_balance sample_db).
Proof.
  pose proof (redemption_touches_one_balance_row sample_env sample_db (FixedPrice 1 1)
                (fst (run (redeem (FixedPrice 1 1)) sample_env sample_db))
                (snd (run (redeem (FixedPrice 1 1)) sample_env sample_db))
                (surjective_pairing _)) as H.
  split; [exact (proj1 H) | exact (proj1 (proj2 (proj2 (proj2 H))))].
Defined.

(** X3.  With distinct primary keys, no redemption, whatever its outcome and
    the fault plan, changes for any user the difference between
    [current_points] and the sum of the points of the user's history
    entries: the debit and its history entry always move together. *)
Theorem redemption_keeps_ledger_gap e db op r db' u :
  primary_keys_unique db ->
  run (redeem op) e db = (r, db') ->
  ledger_gap db' u = ledger_gap db u.
Proof.
  intros ND R.
  destruct (redeem_final_db e db op r db' R) as [->|[item [balance [HI [HB [LE ->]]]]]];
    [reflexivity|].
  unfold ledger_gap. rewrite redeemed_point_history, points_total_app.
  destruct (Z.eq_dec u (op_user_id op)) as [->|NE].
  - rewrite (balance_of_redeemed e op item balance db HB), HB. cbn [option_map].
    rewrite debited_current_points. f_equal.
    unfold points_total at 2. cbn [filter PointHistory.user_id].
    rewrite Z.eqb_refl. cbn [map fold_right PointHistory.points]. lia.
  - rewrite (balance_of_redeemed_other e op item balance db u ND HB NE).
    destruct (balance_of db u) as [b|]; [|reflexivity]. cbn [option_map]. f_equal.
    unfold points_total at 2. cbn [filter PointHistory.user_id].
    destruct (Z.eqb_spec (op_user_id op) u) as [E|_]; [now subst|].
    cbn [map fold_right]. lia.
Qed.

Lemma redemption_keeps_ledger_gap_witness :
  ledger_gap (snd (run (redeem (FixedPrice 1 1)) sample_env sample_db)) 1 =
  ledger_gap sample_db 1.
Proof.
  apply (redemption_keeps_ledger_gap sample_env sample_db (FixedPrice 1 1)
           (fst (run (redeem (FixedPrice 1 1)) sample_env sample_db))
           (snd (run (redeem (FixedPrice 1 1)) sample_env sample_db)) 1).
  - exact sample_keys_unique.
  - apply surjective_pairing.
Defined.

(** ** Redemptions followed by other requests *)

Lemma redeemed_keys_unique e op item balance db :
  primary_keys_unique db -> primary_keys_unique (redeemed e op item balance db).
Proof.
  unfold primary_keys_unique. intros ND. rewrite redeemed_user_balance.
  destruct (debit_amount op item =? 0); [exact ND|].
  rewrite map_map.
  rewrite (map_ext _ UserBalance.id) by (intros b; apply update_balance_id).
  exact ND.
Qed.

Lemma item_of_redeemed e op item balance db i :
  item_of (redeemed e op item balance db) i = item_of db i.
Proof. unfold item_of. now rewrite redeemed_redeemable_items. Qed.

Lemma debited_expiring_points e balance amount :
  UserBalance.expiring_points (debited e balance amount) =
  UserBalance.expiring_points balance.
Proof. unfold debited. destruct (amount =? 0); reflexivity. Qed.

(** X4.  After a redemption that went through, [get_user_balance] reports
    for the user the very balance the redemption answered with, and the
    [expiring_points] stored before. *)
Theorem balance_read_after_redemption e e' db op item balance :
  fault e = None ->
  fault e' = None ->
  primary_keys_unique db ->
  item_of db (op_item_id op) = Some item ->
  balance_of db (op_user_id op) = Some balance ->
  debit_amount op item <= UserBalance.current_points balance ->
  exists resp db' v,
    run (redeem op) e db = (inr resp, db') /\
    response_balance op resp = Some (VInt v) /\
    v = UserBalance.current_points balance - debit_amount op item /\
    run (get_user_balance (op_user_id op)) e' db' =
    (inr [("user_id"%string, VInt (op_user_id op));
          ("current_points"%string, VInt v);
          ("expiring_points"%string, VInt (UserBalance.expiring_points balance))],
     db').
Proof.
  intros F F' ND HI HB LE.
  eexists _, _, _.
  split; [apply (redeem_success e db op item balance F ND HI HB LE)|].
  split; [destruct op; reflexivity|].
  split; [reflexivity|].
  rewrite (get_user_balance_no_fault e' _ _ F').
  rewrite (balance_of_redeemed e op item balance db HB).
  now rewrite debited_current_points, debited_expiring_points.
Qed.

Lemma balance_read_after_redemption_witness :
  exists resp db' v,
    run (redeem (FixedPrice 1 1)) sample_env sample_db = (inr resp, db') /\
    response_balance (FixedPrice 1 1) resp = Some (VInt v) /\
    v = 100 - 30 /\
    run (get_user_balance 1) sample_env db' =
    (inr [("user_id"%string, VInt 1);
          ("current_points"%string, VInt v);
          ("expiring_points"%string, VInt 5)],
     db').
Proof.
  apply (balance_read_after_redemption sample_env sample_env sample_db
           (FixedPrice 1 1) (RedeemableItem.mk 1 "Coffee" 30)
           (UserBalance.mk 1 1 100 7 5 0)).
  - reflexivity.
  - reflexivity.
  - exact sample_keys_unique.
  - reflexivity.
  - reflexivity.
  - cbn. lia.
Defined.

(** X5.  Redemptions add up: after a first redemption of a user went
    through, a second one of the same user is checked against what the
    first left.  It is refused with the 400 when its amount exceeds that,
    leaving the first in place; otherwise it answers with the balance less
    both amounts and the RedemptionRecords of both are the last two rows. *)
Theorem second_redemption_sees_first e1 e2 db op1 op2 item1 item2 balance :
  fault e1 = None ->
  fault e2 = None ->
  primary_keys_unique db ->
  op_user_id op2 = op_user_id op1 ->
  item_of db (op_item_id op1) = Some item1 ->
  item_of db (op_item_id op2) = Some item2 ->
  balance_of db (op_user_id op1) = Some balance ->
  debit_amount op1 item1 <= UserBalance.current_points balance ->
  exists resp1 db1,
    run (redeem op1) e1 db = (inr resp1, db1) /\
    (UserBalance.current_points balance - debit_amount op1 item1
       < debit_amount op2 item2 ->
     run (redeem op2) e2 db1 = (inl (HTTPException 400 "Not enough points"), db1)) /\
    (debit_amount op2 item2
       <= UserBalance.current_points balance - debit_amount op1 item1 ->
     exists resp2 db2 rec1 rec2,
       run (redeem op2) e2 db1 = (inr resp2, db2) /\
       response_balance op2 resp2 =
         Some (VInt (UserBalance.current_points balance
                     - debit_amount op1 item1 - debit_amount op2 item2)) /\
       redemption_history db2 = redemption_history db ++ [rec1; rec2] /\
       RedemptionHistory.points_spent rec1 = debit_amount op1 item1 /\
       RedemptionHistory.points_spent rec2 = debit_amount op2 item2).
Proof.
  intros F1 F2 ND U HI1 HI2 HB LE.
  pose proof (redeem_success e1 db op1 item1 balance F1 ND HI1 HB LE) as R1.
  set (db1 := redeemed e1 op1 item1 balance db) in *.
  assert (ND1 : primary_keys_unique db1) by now apply redeemed_keys_unique.
  assert (HI2' : item_of db1 (op_item_id op2) = Some item2)
    by (unfold db1; now rewrite item_of_redeemed).
  assert (HB1 : balance_of db1 (op_user_id op2) =
                Some (debited e1 balance (debit_amount op1 item1)))
    by (rewrite U; now apply balance_of_redeemed).
  eexists _, db1. split; [exact R1|]. split.
  - intros GT. pose proof (redeem_no_fault e2 db1 op2 F2) as H.
    rewrite HI2', HB1, debited_current_points in H.
    destruct (Z.ltb_spec (UserBalance.current_points balance - debit_amount op1 item1)
                (debit_amount op2 item2)) as [_|L]; [exact H | lia].
  - intros LE2.
    assert (LE2' : debit_amount op2 item2 <=
                   UserBalance.current_points
                     (debited e1 balance (debit_amount op1 item1)))
      by (rewrite debited_current_points; exact LE2).
    pose proof (redeem_success e2 db1 op2 item2 _ F2 ND1 HI2' HB1 LE2') as R2.
    rewrite debited_current_points in R2.
    eexists _, _, _, _. split; [exact R2|].
    split; [destruct op2; reflexivity|].
    split; [rewrite redeemed_redemption_history; unfold db1;
            rewrite redeemed_redemption_history, <- app_assoc; reflexivity|].
    split; reflexivity.
Qed.

Lemma second_redemption_sees_first_witness :
  exists resp1 db1,
    run (redeem (FixedPrice 1 1)) sample_env sample_db = (inr resp1, db1) /\
    (100 - 30 < 1000 ->
     run (redeem (FlexibleAmount (mkUsePointsRequest 1 1 1000))) sample_env db1 =
       (inl (HTTPException 400 "Not enough points"), db1)) /\
    (1000 <= 100 - 30 ->
     exists resp2 db2 rec1 rec2,
       run (redeem (FlexibleAmount (mkUsePointsRequest 1 1 1000))) sample_env db1 =
         (inr resp2, db2) /\
       response_balance (FlexibleAmount (mkUsePointsRequest 1 1 1000)) resp2 =
         Some (VInt (100 - 30 - 1000)) /\
       redemption_history db2 = [] ++ [rec1; rec2] /\
       RedemptionHistory.points_spent rec1 = 30 /\
       RedemptionHistory.points_spent rec2 = 1000).
Proof.
  apply (second_redemption_sees_first sample_env sample_env sample_db
           (FixedPrice 1 1) (FlexibleAmount (mkUsePointsRequest 1 1 1000))
           (RedeemableItem.mk 1 "Coffee" 30) (RedeemableItem.mk 1 "Coffee" 30)
           (UserBalance.mk 1 1 100 7 5 0)).
  - reflexivity.
  - reflexivity.
  - exact sample_keys_unique.
  - reflexivity.
  - reflexivity.
  - reflexivity.
  - reflexivity.
  - cbn. lia.
Defined.

(** X6.  The two audit rows of a redemption that went through: the
    RedemptionRecord is dated [utcnow]; the PointHistoryEntry is described
    by the item's name followed by "と交換", and is dated [utcnow] without
    remarks on the fixed-price path, but dated [now] with the remarks
    "アイテム交換: " and the item's name on the flexible path. *)
Theorem audit_rows_of_a_redemption e db op resp db' :
  run (redeem op) e db = (inr resp, db') ->
  exists item rec h,
    item_of db (op_item_id op) = Some item /\
    redemption_history db' = redemption_history db ++ [rec] /\
    point_history db' = point_history db ++ [h] /\
    RedemptionHistory.date rec = utcnow e /\
    PointHistory.description h = (RedeemableItem.name item ++ "と交換")%string /\
    PointHistory.date h =
      match op with FixedPrice _ _ => utcnow e | FlexibleAmount _ => now e end /\
    PointHistory.remarks h =
      match op with
      | FixedPrice _ _ => None
      | FlexibleAmount _ => Some ("アイテム交換: " ++ RedeemableItem.name item)%string
      end.
Proof.
  intros R.
  destruct (redeem_success_inv e db op resp db' R)
    as [item [balance [b [HI [HB [_ [-> _]]]]]]].
  exists item. eexists _, _.
  split; [exact HI|].
  split; [apply redeemed_redemption_history|].
  split; [apply redeemed_point_history|].
  repeat split.
Qed.

Lemma audit_rows_of_a_redemption_witness :
  exists item rec h,
    item_of sample_db 1 = Some item /\
    redemption_history
      (snd (run (redeem (FlexibleAmount (mkUsePointsRequest 1 1 30)))
              sample_env sample_db)) = [] ++ [rec] /\
    point_history
      (snd (run (redeem (FlexibleAmount (mkUsePointsRequest 1 1 30)))
              sample_env sample_db)) = [] ++ [h] /\
    RedemptionHistory.date rec = 900 /\
    PointHistory.description h = (RedeemableItem.name item ++ "と交換")%string /\
    PointHistory.date h = 1000 /\
    PointHistory.remarks h =
      Some ("アイテム交換: " ++ RedeemableItem.name item)%string.
Proof.
  apply (audit_rows_of_a_redemption sample_env sample_db
           (FlexibleAmount (mkUsePointsRequest 1 1 30))
           (success_response (FlexibleAmount (mkUsePointsRequest 1 1 30)) 70)).
  vm_compute. reflexivity.
Defined.

(** X7.  A redemption that went through shows in the user's history: the
    unfiltered listing has its entry; the "used" listing has it exactly
    when the amount was positive and the "earned" listing exactly when it
    was negative, so that the entry of a zero amount is in neither. *)
Theorem redemption_shows_in_history e e' db op resp db' :
  fault e' = None ->
  run (redeem op) e db = (inr resp, db') ->
  exists item h rows used earned,
    item_of db (op_item_id op) = Some item /\
    point_history db' = point_history db ++ [h] /\
    run (get_point_history (op_user_id op) None None) e' db' = (inr rows, db') /\
    run (get_point_history (op_user_id op) None (Some "used"%string)) e' db' =
      (inr used, db') /\
    run (get_point_history (op_user_id op) None (Some "earned"%string)) e' db' =
      (inr earned, db') /\
    In h rows /\
    (In h used <-> 0 < debit_amount op item) /\
    (In h earned <-> debit_amount op item < 0).
Proof.
  intros F' R.
  destruct (redeem_success_inv e db op resp db' R)
    as [item [balance [b [HI [HB [_ [-> _]]]]]]].
  set (db' := redeemed e op item balance db).
  exists item. eexists _, _, _, _.
  split; [exact HI|].
  split; [apply redeemed_point_history|].
  split; [apply (get_point_history_no_fault e' db' _ None None F')|].
  split; [apply (get_point_history_no_fault e' db' _ None (Some "used"%string) F')|].
  split; [apply (get_point_history_no_fault e' db' _ None (Some "earned"%string) F')|].
  match goal with |- In ?x _ /\ _ => set (h := x) end.
  assert (Hin : In h (point_history db'))
    by (unfold db'; rewrite redeemed_point_history; apply in_or_app; right; now left).
  split; [apply listing_complete; [exact Hin|]; repeat split; discriminate|].
  split; split.
  - intros Hh. apply listing_sound in Hh. destruct Hh as [_ [_ [_ P]]].
    specialize (P eq_refl). cbn in P. lia.
  - intros P. apply listing_complete; [exact Hin|].
    split; [reflexivity|]. split; [discriminate|]. intros _. cbn. lia.
  - intros Hh. apply listing_sound in Hh. destruct Hh as [_ [_ [P _]]].
    specialize (P eq_refl). cbn in P. lia.
  - intros P. apply listing_complete; [exact Hin|].
    split; [reflexivity|]. split; [|discriminate]. intros _. cbn. lia.
Qed.

Lemma redemption_shows_in_history_witness :
  exists item h rows used earned,
    item_of sample_db 1 = Some item /\
    point_history
      (snd (run (redeem (FlexibleAmount (mkUsePointsRequest 1 1 0)))
              sample_env sample_db)) = [] ++ [h] /\
    run (get_point_history 1 None None) sample_env
      (snd (run (redeem (FlexibleAmount (mkUsePointsRequest 1 1 0)))
              sample_env sample_db)) =
      (inr rows,
       snd (run (redeem (FlexibleAmount (mkUsePointsRequest 1 1 0)))
              sample_env sample_db)) /\
    run (get_point_history 1 None (Some "used"%string)) sample_env
      (snd (run (redeem (FlexibleAmount (mkUsePointsRequest 1 1 0)))
              sample_env sample_db)) =
      (inr used,
       snd (run (redeem (FlexibleAmount (mkUsePointsRequest 1 1 0)))
              sample_env sample_db)) /\
    run (get_point_history 1 None (Some "earned"%string)) sample_env
      (snd (run (redeem (FlexibleAmount (mkUsePointsRequest 1 1 0)))
              sample_env sample_db)) =
      (inr earned,
       snd (run (redeem (FlexibleAmount (mkUsePointsRequest 1 1 0)))
              sample_env sample_db)) /\
    In h rows /\
    (In h used <-> 0 < RedeemableItem.points_required item * 0) /\
    (In h earned <-> RedeemableItem.points_required item * 0 < 0).
Proof.
  destruct (redemption_shows_in_history sample_env sample_env sample_db
              (FlexibleAmount (mkUsePointsRequest 1 1 0))
              (success_response (FlexibleAmount (mkUsePointsRequest 1 1 0)) 100)
              (snd (run (redeem (FlexibleAmount (mkUsePointsRequest 1 1 0)))
                      sample_env sample_db))
              eq_refl)
    as [item [h [rows [used [earned [H1 [H2 [H3 [H4 [H5 [H6 [H7 H8]]]]]]]]]]]].
  { vm_compute. reflexivity. }
  exists item, h, rows, used, earned.
  cbn [debit_amount req_points] in H7, H8.
  rewrite Z.mul_0_r.
  repeat (split; [assumption|]). exact H8.
Defined.

(** ** More on the read handlers *)

Lemma is_str_false x s : x <> Some s -> is_str x s = false.
Proof.
  intros N. destruct (is_str x s) eqn:E; [|reflexivity].
  apply is_str_true in E. contradiction.
Qed.

(** X8.  A filter type other than "earned" and "used" (so "all", but also a
    misspelt or differently cased one) is no filter: the request runs as
    the one without filter type, whatever the limit and the fault plan. *)
Theorem unknown_filter_type_is_no_filter e db user_id limit filter_type :
  filter_type <> Some "earned"%string ->
  filter_type <> Some "used"%string ->
  run (get_point_history user_id limit filter_type) e db =
  run (get_point_history user_id limit None) e db.
Proof.
  intros NE NU. unfold get_point_history.
  rewrite (is_str_false _ _ NE), (is_str_false _ _ NU). reflexivity.
Qed.

Lemma unknown_filter_type_is_no_filter_witness :
  run (get_point_history 1 (Some 5) (Some "Earned"%string)) sample_env history_db =
  run (get_point_history 1 (Some 5) None) sample_env history_db.
Proof.
  apply (unknown_filter_type_is_no_filter sample_env history_db 1 (Some 5)
           (Some "Earned"%string)).
  - intros H. discriminate H.
  - intros H. discriminate H.
Defined.

Lemma filter_three_ways {A} (p a b c : A -> bool) l :
  (forall x,
     (p x = true /\
      ((a x = true /\ b x = false /\ c x = false) \/
       (a x = false /\ b x = true /\ c x = false) \/
       (a x = false /\ b x = false /\ c x = true))) \/
     (p x = false /\ a x = false /\ b x = false /\ c x = false)) ->
  Permutation (filter p l) (filter a l ++ filter b l ++ filter c l).
Proof.
  intros H. induction l as [|x l IH]; [constructor|].
  cbn [filter].
  destruct (H x) as [[-> [[-> [-> ->]]|[[-> [-> ->]]|[-> [-> ->]]]]]|[-> [-> [-> ->]]]].
  - cbn [app]. now constructor.
  - now apply Permutation_cons_app.
  - rewrite app_assoc. apply Permutation_cons_app. now rewrite <- app_assoc.
  - exact IH.
Qed.

(** X9.  Without limit, the "earned" rows, the "used" rows and the user's
    rows of zero points make up the unfiltered listing: every row of the
    user is in exactly one of the three, and a row of zero points is
    listed only when no filter type is given. *)
Theorem filters_split_history e db user_id :
  fault e = None ->
  exists rows earned used,
    run (get_point_history user_id None None) e db = (inr rows, db) /\
    run (get_point_history user_id None (Some "earned"%string)) e db =
      (inr earned, db) /\
    run (get_point_history user_id None (Some "used"%string)) e db =
      (inr used, db) /\
    Permutation rows (earned ++ used ++ zero_point_rows db user_id) /\
    (forall h, In h (zero_point_rows db user_id) ->
               In h rows /\ ~ In h earned /\ ~ In h used).
Proof.
  intros F. eexists _, _, _.
  split; [apply (get_point_history_no_fault e db _ None None F)|].
  split; [apply (get_point_history_no_fault e db _ None (Some "earned"%string) F)|].
  split; [apply (get_point_history_no_fault e db _ None (Some "used"%string) F)|].
  split.
  - rewrite !listing_perm. unfold zero_point_rows. apply filter_three_ways.
    intros h. unfold wanted. cbn [is_str String.eqb Ascii.eqb Bool.eqb].
    destruct (PointHistory.user_id h =? user_id); cbn [andb]; [|now right].
    left. split; [reflexivity|].
    destruct (Z.ltb_spec 0 (PointHistory.points h)) as [P|P];
      destruct (Z.ltb_spec (PointHistory.points h) 0) as [N|N];
      destruct (Z.eqb_spec (PointHistory.points h) 0) as [Z0|Z0];
      try lia; auto.
  - intros h Hz. unfold zero_point_rows in Hz. apply filter_In in Hz.
    destruct Hz as [Hin Hz]. apply andb_true_iff in Hz. destruct Hz as [U Z0].
    apply Z.eqb_eq in U. apply Z.eqb_eq in Z0.
    split; [apply listing_complete; [exact Hin|]; split; [exact U|];
            split; discriminate|].
    split; intros Hh; apply listing_sound in Hh; destruct Hh as [_ [_ [P N]]].
    + specialize (P eq_refl). lia.
    + specialize (N eq_refl). lia.
Qed.

Lemma filters_split_history_witness :
  exists rows earned used,
    run (get_point_history 1 None None) sample_env history_db =
      (inr rows, history_db) /\
    run (get_point_history 1 None (Some "earned"%string)) sample_env history_db =
      (inr earned, history_db) /\
    run (get_point_history 1 None (Some "used"%string)) sample_env history_db =
      (inr used, history_db) /\
    Permutation rows (earned ++ used ++ zero_point_rows history_db 1) /\
    (forall h, In h (zero_point_rows history_db 1) ->
               In h rows /\ ~ In h earned /\ ~ In h used).
Proof.
  apply (filters_split_history sample_env history_db 1). reflexivity.
Defined.

Lemma get_point_history_legacy_no_fault e db user_id :
  fault e = None ->
  run (get_point_history_legacy user_id) e db =
  (inr (map legacy_entry
          (filter (fun h => PointHistory.user_id h =? user_id) (point_history db))),
   db).
Proof.
  intros F. unfold run, get_point_history_legacy, all_where, bind.
  now rewrite (execute_ok _ _ _ F).
Qed.

(** X10.  The legacy history endpoint knows neither filter nor limit: it
    answers with one dict of [date], [description] and [points] per stored
    row of the user, in storage order, and these are, up to their order,
    the rows the newer endpoint lists without filter type and limit. *)
Theorem legacy_history_is_unfiltered_and_unlimited e db user_id :
  fault e = None ->
  exists legacy rows,
    run (get_point_history_legacy user_id) e db = (inr legacy, db) /\
    run (get_point_history user_id None None) e db = (inr rows, db) /\
    legacy = map legacy_entry
               (filter (fun h => PointHistory.user_id h =? user_id) (point_history db)) /\
    Permutation legacy (map legacy_entry rows) /\
    List.length legacy = List.length rows /\
    (forall d, In d legacy -> map fst d = ["date"; "description"; "points"]%string).
Proof.
  intros F. eexists _, _.
  split; [apply (get_point_history_legacy_no_fault e db user_id F)|].
  split; [apply (get_point_history_no_fault e db _ None None F)|].
  assert (W : forall h, wanted user_id None h = (PointHistory.user_id h =? user_id))
    by (intros h; unfold wanted; cbn [is_str]; apply andb_true_r).
  assert (P : Permutation
                (filter (fun h => PointHistory.user_id h =? user_id) (point_history db))
                (listing db user_id None)).
  { rewrite listing_perm. rewrite (filter_ext _ _ W). reflexivity. }
  split; [reflexivity|].
  split; [now apply Permutation_map|].
  split; [rewrite !length_map; now apply Permutation_length|].
  intros d Hd. apply in_map_iff in Hd. destruct Hd as [h [<- _]]. reflexivity.
Qed.

Lemma legacy_history_is_unfiltered_and_unlimited_witness :
  exists legacy rows,
    run (get_point_history_legacy 1) sample_env ten_entries_db =
      (inr legacy, ten_entries_db) /\
    run (get_point_history 1 None None) sample_env ten_entries_db =
      (inr rows, ten_entries_db) /\
    legacy = map legacy_entry
               (filter (fun h => PointHistory.user_id h =? 1)
                  (point_history ten_entries_db)) /\
    Permutation legacy (map legacy_entry rows) /\
    List.length legacy = List.length rows /\
    (forall d, In d legacy -> map fst d = ["date"; "description"; "points"]%string).
Proof.
  apply (legacy_history_is_unfiltered_and_unlimited sample_env ten_entries_db 1).
  reflexivity.
Defined.

(** X11.  A user id without history rows, known or not, is no error for the
    two history endpoints: both answer with the empty list, where
    [get_user_balance] raises the 404 for a user id without Balance row. *)
Theorem history_of_unknown_user_is_empty e db user_id limit filter_type :
  fault e = None ->
  (forall n, limit = Some n -> 0 <= n) ->
  (forall h, In h (point_history db) -> PointHistory.user_id h <> user_id) ->
  run (get_point_history user_id limit filter_type) e db = (inr [], db) /\
  run (get_point_history_legacy user_id) e db = (inr [], db).
Proof.
  intros F NN No.
  assert (E : forall p,
            filter (fun h => (PointHistory.user_id h =? user_id) && p h)
              (point_history db) = []).
  { intros p. induction (point_history db) as [|h l IH]; [reflexivity|].
    cbn [filter].
    destruct (Z.eqb_spec (PointHistory.user_id h) user_id) as [U|_].
    - exfalso. apply (No h); [now left | exact U].
    - cbn [andb]. apply IH. intros h' Hh'. apply No. now right. }
  split.
  - rewrite (get_point_history_no_fault e db user_id limit filter_type F).
    unfold listing, wanted. rewrite E. cbn [sort_desc fold_right].
    destruct limit as [n|]; [|reflexivity].
    destruct (n =? 0); [reflexivity|].
    destruct (Z.ltb_spec n 0) as [L|_]; [specialize (NN n eq_refl); lia|].
    now rewrite firstn_nil.
  - rewrite (get_point_history_legacy_no_fault e db user_id F).
    rewrite (filter_ext _ (fun h => (PointHistory.user_id h =? user_id) && true))
      by (intros h; now rewrite andb_true_r).
    now rewrite E.
Qed.

Lemma history_of_unknown_user_is_empty_witness :
  run (get_point_history 42 (Some 5) None) sample_env history_db =
    (inr [], history_db) /\
  run (get_point_history_legacy 42) sample_env history_db = (inr [], history_db).
Proof.
  apply (history_of_unknown_user_is_empty sample_env history_db 42 (Some 5) None).
  - reflexivity.
  - intros n H. injection H as <-. lia.
  - intros h H. cbn in H.
    destruct H as [<-|[<-|[<-|[<-|[]]]]]; cbn; lia.
Defined.

(** X12.  [get_user] answers with a row of the [users] table that carries
    the asked id, the first such in storage order, when there is one, and
    raises the 404 "User not found" exactly when no row carries it; the
    database is left as it was. *)
Theorem get_user_finds_by_id e db users user_id :
  fault e = None ->
  ((exists u, In u users /\ User.id u = user_id) ->
   exists u, run (get_user users user_id) e db = (inr u, db) /\
             In u users /\ User.id u = user_id /\
             find (fun x => User.id x =? user_id) users = Some u) /\
  ((forall u, In u users -> User.id u <> user_id) ->
   run (get_user users user_id) e db =
     (inl (HTTPException 404 "User not found"), db)) /\
  run (get_users users) e db = (inr users, db).
Proof.
  intros F.
  assert (R : run (get_user users user_id) e db =
              (match find (fun x => User.id x =? user_id) users with
               | Some u => inr u
               | None => inl (HTTPException 404 "User not found")
               end, db)).
  { unfold run, get_user, bind. rewrite (execute_ok _ _ _ F). unfold ret.
    destruct (find _ users); reflexivity. }
  split; [|split].
  - intros [u [Hin Hid]].
    destruct (find_In_some (fun x => User.id x =? user_id) users u Hin)
      as [y Hy]; [now apply Z.eqb_eq|].
    exists y. rewrite R, Hy. split; [reflexivity|].
    apply find_some in Hy. destruct Hy as [I E]. apply Z.eqb_eq in E. auto.
  - intros No. rewrite R.
    destruct (find (fun x => User.id x =? user_id) users) as [u|] eqn:E;
      [|reflexivity].
    apply find_some in E. destruct E as [I E]. apply Z.eqb_eq in E.
    now destruct (No u I).
  - unfold run, get_users, bind. now rewrite (execute_ok _ _ _ F).
Qed.

Lemma get_user_finds_by_id_witness :
  run (get_user [User.mk 1 "Sato" "Acme"; User.mk 2 "Suzuki" "Acme"] 2)
    sample_env sample_db = (inr (User.mk 2 "Suzuki" "Acme"), sample_db) /\
  run (get_user [User.mk 1 "Sato" "Acme"; User.mk 2 "Suzuki" "Acme"] 3)
    sample_env sample_db = (inl (HTTPException 404 "User not found"), sample_db).
Proof.
  pose proof (get_user_finds_by_id sample_env sample_db
                [User.mk 1 "Sato" "Acme"; User.mk 2 "Suzuki" "Acme"]) as H.
  split.
  - destruct (proj1 (H 2 eq_refl)) as [u [R [_ [_ Fd]]]].
    { exists (User.mk 2 "Suzuki" "Acme"). split; [right; now left | reflexivity]. }
    cbn in Fd. injection Fd as <-. exact R.
  - apply (proj1 (proj2 (H 3 eq_refl))).
    intros u [<-|[<-|[]]]; cbn; lia.
Defined.

(** No read handler writes: whatever the fault plan and the
    arguments, the database after the request is the database before. *)
Lemma read_handlers_leave_database e db users user_id limit filter_type :
  snd (run (get_user_balance user_id) e db) = db /\
  snd (run (get_point_history user_id limit filter_type) e db) = db /\
  snd (run (get_point_history_legacy user_id) e db) = db /\
  snd (run get_redeemable_items e db) = db /\
  snd (run (get_users users) e db) = db /\
  snd (run (get_user users user_id) e db) = db.
Proof.
  unfold run.
  split; [|split; [|split; [|split; [|split]]]].
  - unfold get_user_balance, bind.
    destruct (first_cases user_balance
                (fun b => UserBalance.user_id b =? user_id) e (SessionLocal db))
      as [[H _]|H]; rewrite H; [reflexivity|].
    destruct (find _ _); reflexivity.
  - unfold get_point_history, query_all, bind.
    destruct (execute_cases SELECT e (SessionLocal db)) as [[H _]|H]; rewrite H;
      [reflexivity|].
    destruct (q_limit _) as [n|]; [destruct (n <? 0)|]; reflexivity.
  - unfold get_point_history_legacy, all_where, bind.
    destruct (execute_cases SELECT e (SessionLocal db)) as [[H _]|H]; rewrite H;
      reflexivity.
  - unfold get_redeemable_items, all, bind.
    destruct (execute_cases SELECT e (SessionLocal db)) as [[H _]|H]; rewrite H;
      reflexivity.
  - unfold get_users, bind.
    destruct (execute_cases SELECT e (SessionLocal db)) as [[H _]|H]; rewrite H;
      reflexivity.
  - unfold get_user, bind.
    destruct (execute_cases SELECT e (SessionLocal db)) as [[H _]|H]; rewrite H;
      [reflexivity|].
    unfold ret. destruct (find _ users); reflexivity.
Qed.

(** X13.  The catalog a client lists after a redemption, whatever came of
    it, is the catalog stored before: every item, in storage order. *)
Theorem catalog_listing_survives_redemption e e' db op r db' :
  fault e' = None ->
  run (redeem op) e db = (r, db') ->
  run get_redeemable_items e' db' = (inr (redeemable_items db), db').
Proof.
  intros F R.
  assert (C : redeemable_items db' = redeemable_items db).
  { destruct (redeem_final_db e db op r db' R) as [->|[item [balance [_ [_ [_ ->]]]]]];
      [reflexivity | apply redeemed_redeemable_items]. }
  unfold run, get_redeemable_items, all, bind.
  rewrite (execute_ok _ _ _ F). cbn [tx bump SessionLocal committed]. now rewrite C.
Qed.

Lemma catalog_listing_survives_redemption_witness :
  run get_redeemable_items sample_env
    (snd (run (redeem (FixedPrice 1 1)) (failing_env 6) sample_db)) =
  (inr [RedeemableItem.mk 1 "Coffee" 30],
   snd (run (redeem (FixedPrice 1 1)) (failing_env 6) sample_db)).
Proof.
  apply (catalog_listing_survives_redemption (failing_env 6) sample_env sample_db
           (FixedPrice 1 1)
           (fst (run (redeem (FixedPrice 1 1)) (failing_env 6) sample_db))).
  - reflexivity.
  - apply surjective_pairing.
Defined.
